(** * TutorEase course section: the form -> progress -> results workflow

    A shallow embedding of the page controller ([Index]), the intake form
    ([CourseForm]), the simulated progress stage ([ProgressBar]) and the
    result view ([ResultsCard]), together with the small part of the
    JavaScript host they rely on (strings, object-literal lookup, timers). *)

From Stdlib Require Import List Bool Arith ZArith NArith QArith String Ascii Lia.
Import ListNotations.

(** ** JavaScript strings

    A JavaScript string is a sequence of UTF-16 code units.  The literals of
    the program are all ASCII, so [js] reads them off a Rocq string. *)

Definition code_unit := N.
Definition jsstring := list code_unit.

Definition js (s : string) : jsstring :=
  map N_of_ascii (list_ascii_of_string s).

(** [a === b] on strings. *)
Fixpoint streq (a b : jsstring) : bool :=
  match a, b with
  | [], [] => true
  | x :: a', y :: b' => N.eqb x y && streq a' b'
  | _, _ => false
  end.

(** [!s]: the empty string is the only falsy string. *)
Definition falsy (s : jsstring) : bool :=
  match s with [] => true | _ :: _ => false end.

(** [s.startsWith(p)] and [s.includes(p)], used to state where a value
    is interpolated. *)
Fixpoint startsWith (p s : jsstring) : bool :=
  match p, s with
  | [], _ => true
  | x :: p', y :: s' => N.eqb x y && startsWith p' s'
  | _ :: _, [] => false
  end.


(** [p] occurs in [s]. *)
Definition occurs_in (p s : jsstring) : Prop :=
  exists pre post, s = pre ++ p ++ post.

Definition SPACE : code_unit := 32%N.
Definition UNDERSCORE : code_unit := 95%N.

(** [s.split(' ')]: the pieces between the single spaces.  [split_from]
    carries the piece being read, in reverse. *)
Fixpoint split_from (acc : jsstring) (s : jsstring) : list jsstring :=
  match s with
  | [] => [rev acc]
  | c :: s' =>
      if N.eqb c SPACE then rev acc :: split_from [] s'
      else split_from (c :: acc) s'
  end.

Definition split_space (s : jsstring) : list jsstring := split_from [] s.

(** [`${v}`] of an array element that may be missing ([undefined]). *)
Definition interpolate (v : option jsstring) : jsstring :=
  match v with
  | Some s => s
  | None => js "undefined"
  end.

(** The class [\s] of a regular expression: WhiteSpace and LineTerminator
    code units. *)
Definition is_whitespace (c : code_unit) : bool :=
  existsb (N.eqb c)
    [9; 10; 11; 12; 13; 32; 160; 5760; 8232; 8233; 8239; 8287; 12288; 65279]%N
  || (N.leb 8192 c && N.leb c 8202).

(** [s.replace(/\s+/g, '_')]: scanning from the left, every maximal run of
    whitespace becomes one underscore.  [in_run] tells that the previous
    code unit belonged to a run already replaced. *)
Fixpoint replace_ws (in_run : bool) (s : jsstring) : jsstring :=
  match s with
  | [] => []
  | c :: s' =>
      if is_whitespace c
      then (if in_run then replace_ws true s' else UNDERSCORE :: replace_ws true s')
      else c :: replace_ws false s'
  end.

Definition replace_whitespace_runs (s : jsstring) : jsstring := replace_ws false s.

(** ** Object literals used as tables

    [table[key]] on an object literal finds an own property first and
    otherwise walks to [Object.prototype], whose members are all truthy
    (functions, and the prototype object itself for [__proto__]); a key
    found in neither gives [undefined]. *)

Inductive property (A : Type) : Type :=
| Undefined
| Own (a : A)
| Inherited (member : jsstring).
Arguments Undefined {A}.
Arguments Own {A} a.
Arguments Inherited {A} member.

Definition Object_prototype_members : list jsstring :=
  map js
    [ "constructor"; "hasOwnProperty"; "isPrototypeOf"; "propertyIsEnumerable";
      "toLocaleString"; "toString"; "valueOf"; "__proto__";
      "__defineGetter__"; "__defineSetter__"; "__lookupGetter__";
      "__lookupSetter__" ]%string.

Fixpoint own_property {A} (obj : list (jsstring * A)) (key : jsstring) : option A :=
  match obj with
  | [] => None
  | (k, a) :: obj' => if streq k key then Some a else own_property obj' key
  end.

(** [obj[key]]. *)
Definition get {A} (obj : list (jsstring * A)) (key : jsstring) : property A :=
  match own_property obj key with
  | Some a => Own a
  | None =>
      if existsb (streq key) Object_prototype_members
      then Inherited key
      else Undefined
  end.

(** [v || d]: arrays and the members of [Object.prototype] are truthy,
    [undefined] is falsy. *)
Definition or_else {A} (v d : property A) : property A :=
  match v with
  | Undefined => d
  | _ => v
  end.

(** ** Index: generateFakeData *)

Record Result := {
  r_topic : jsstring;
  r_skillLevel : jsstring;
  learningPath : property (list jsstring);
  projects : property (list jsstring);
  resources : list jsstring;
  careerOpportunities : list jsstring
}.

Definition learningPathMap : list (jsstring * list jsstring) :=
  [ (js "Web Development",
      map js
      [ "1. HTML & CSS Fundamentals - Create responsive layouts";
        "2. JavaScript Basics - Learn syntax and core concepts";
        "3. Frontend Frameworks - Choose React, Angular, or Vue";
        "4. Backend Development - Node.js and Express";
        "5. Database Integration - SQL and NoSQL options";
        "6. API Design - RESTful and GraphQL approaches";
        "7. Deployment & DevOps - CI/CD pipelines" ]%string);
    (js "Data Science",
      map js
      [ "1. Programming Basics - Python and libraries";
        "2. Statistics Fundamentals - Probability and inference";
        "3. Data Manipulation - Pandas and data cleaning";
        "4. Data Visualization - Matplotlib and Seaborn";
        "5. Machine Learning Basics - Scikit-learn";
        "6. Deep Learning - TensorFlow or PyTorch";
        "7. Data Science Projects - Portfolio building" ]%string);
    (js "Machine Learning",
      map js
      [ "1. Mathematics Fundamentals - Linear algebra and calculus";
        "2. Statistical Modeling - Probability distributions";
        "3. ML Algorithms - Classification, regression, clustering";
        "4. Feature Engineering - Selection and transformation";
        "5. Model Evaluation - Metrics and validation";
        "6. Deep Learning - Neural networks and architectures";
        "7. MLOps - Deployment and monitoring" ]%string) ].

Definition defaultLearningPath : list jsstring :=
  map js
  [ "1. Fundamentals - Core concepts and principles";
    "2. Programming Skills - Required languages and tools";
    "3. Specialized Knowledge - Domain-specific techniques";
    "4. Advanced Topics - Deeper understanding of complex areas";
    "5. Project Work - Applied learning through creation";
    "6. Industry Standards - Best practices and workflows";
    "7. Continuous Learning - Keeping up with developments" ]%string.

Definition beginnerProjects : list jsstring :=
  map js
  [ "Personal portfolio website";
    "Simple calculator application";
    "To-do list manager";
    "Weather forecast app" ]%string.

Definition projectsByLevel : list (jsstring * list jsstring) :=
  [ (js "beginner", beginnerProjects);
    (js "intermediate",
      map js
      [ "E-commerce platform with payment integration";
        "Social media dashboard with analytics";
        "Content management system";
        "Real-time chat application" ]%string);
    (js "advanced",
      map js
      [ "AI-powered recommendation system";
        "Blockchain-based decentralized application";
        "Cloud-native microservices architecture";
        "Computer vision object detection system" ]%string) ].

Definition generateFakeData (topic skillLevel : jsstring) : Result :=
  let learningPath := or_else (get learningPathMap topic) (Own defaultLearningPath) in
  let resources :=
    [ js "Udemy - Comprehensive video courses for practical skills";
      js "Coursera - University-backed learning programs";
      js "freeCodeCamp - Free interactive coding challenges";
      js "GitHub repositories with example projects";
      js "Stack Overflow - Community support for problems";
      js "O'Reilly books on " ++ topic ] in
  let careerOpportunities :=
    [ interpolate (nth_error (split_space topic) 0) ++ js " Developer at tech companies";
      js "Freelance consultant for small businesses";
      js "Technical lead at startups";
      js "Senior specialist at enterprise organizations";
      js "Technical educator or course creator" ] in
  {| r_topic := topic;
     r_skillLevel := skillLevel;
     learningPath := learningPath;
     projects :=
       or_else (get projectsByLevel skillLevel) (get projectsByLevel (js "beginner"));
     resources := resources;
     careerOpportunities := careerOpportunities |}.


(** ** ResultsCard: the presentation templates *)

(** A roadmap item as the view walks it: [description] and [subItems] are
    optional members. *)
#[warning="-register-all"]
Inductive RoadmapItem : Type :=
| Item (text color : jsstring) (description : option jsstring)
       (subItems : option (list RoadmapItem)).

Definition text (i : RoadmapItem) : jsstring :=
  match i with Item t _ _ _ => t end.
Definition color (i : RoadmapItem) : jsstring :=
  match i with Item _ c _ _ => c end.
Definition description (i : RoadmapItem) : option jsstring :=
  match i with Item _ _ d _ => d end.
Definition subItems (i : RoadmapItem) : option (list RoadmapItem) :=
  match i with Item _ _ _ l => l end.

Definition leaf (t : jsstring) : RoadmapItem := Item t (js "white") None None.
Definition group (t c : jsstring) (l : list RoadmapItem) : RoadmapItem :=
  Item t c None (Some l).

Definition transformLearningPath (data : Result) : list RoadmapItem :=
  let topic := r_topic data in
  let skillLevel := r_skillLevel data in
  [ Item (js "Foundations of " ++ topic ++ js " (" ++ skillLevel ++ js ") - 4-6 weeks")
      (js "green-400")
      (Some (js "Build core knowledge and fundamental skills in " ++ topic ++
             js ". Focus on understanding basic principles and becoming familiar with essential tools."))
      (Some
        [ group (js "Key Concepts:") (js "cyan-400")
            [ leaf (topic ++ js " basics");
              leaf (js "Core principles");
              leaf (js "Fundamental tools and techniques") ];
          group (js "Milestones:") (js "pink-400")
            [ leaf (js "Complete first " ++ topic ++ js " exercise");
              leaf (js "Build simple " ++ topic ++ js " project") ];
          group (js "Practice Activities:") (js "cyan-400")
            [ leaf (js "Daily " ++ topic ++ js " exercises");
              leaf (js "Follow beginner tutorials") ] ]);
    Item (topic ++ js " Skill Development (Intermediate) - 8-12 weeks")
      (js "green-400")
      (Some (js "Deepen understanding of " ++ topic ++
             js " and apply more advanced concepts. Focus on building practical skills through hands-on projects and implementation."))
      (Some
        [ group (js "Key Concepts:") (js "cyan-400")
            [ leaf (js "Advanced " ++ topic ++ js " techniques");
              leaf (js "Applied projects");
              leaf (js "Specialized tools") ];
          group (js "Milestones:") (js "pink-400")
            [ leaf (js "Complete medium complexity " ++ topic ++ js " project");
              leaf (js "Solve real-world problems") ];
          group (js "Practice Activities:") (js "cyan-400")
            [ leaf (js "Implement sample projects");
              leaf (js "Participate in forums/discussions") ] ]);
    Item (topic ++ js " Mastery & Specialization (Advanced) - 12-16 weeks")
      (js "green-400")
      (Some (js "Develop expert-level skills in " ++ topic ++
             js " with focus on real-world application. Specialize in specific areas and build a professional portfolio."))
      (Some
        [ group (js "Key Concepts:") (js "cyan-400")
            [ leaf (js "Industry best practices");
              leaf (js "Specialized frameworks");
              leaf (js "Performance optimization") ] ]) ].



(** ** ResultsCard: the course catalogue *)

Record Course := {
  c_id : jsstring;
  c_title : jsstring;
  c_rating : Q;
  c_difficulty : jsstring
}.

Definition mockCourses : list Course :=
  [ {| c_id := js "132"; c_title := js "Web Development With Rust";
       c_rating := 5.0; c_difficulty := js "Beginner" |};
    {| c_id := js "396";
       c_title := js "Web Design For Everybody: Basics Of Web Development & Coding";
       c_rating := 4.8; c_difficulty := js "Beginner" |};
    {| c_id := js "1606"; c_title := js "Introduction To Web Development";
       c_rating := 4.7; c_difficulty := js "Beginner" |};
    {| c_id := js "605";
       c_title := js "Backend Web Development With Go: Build An E-Manual Server";
       c_rating := 4.8; c_difficulty := js "Beginner" |};
    {| c_id := js "196";
       c_title := js "JavaScript Essentials for Modern Web Development";
       c_rating := 4.7; c_difficulty := js "Beginner" |} ].

Record CourseDetails := {
  id : jsstring;
  title : jsstring;
  instructor : jsstring;
  difficulty : jsstring;
  rating : Q;
  skills : list jsstring;
  d_description : jsstring
}.

(** The component state of a mounted ResultsCard, with its [data] prop. *)
Record ResultsCard := {
  data : Result;
  showExportOption : bool;
  exportConfirmed : bool;
  showCoursesDialog : bool;
  courseId : jsstring;
  courseDetails : option CourseDetails
}.

Definition ResultsCard_mount (d : Result) : ResultsCard :=
  {| data := d; showExportOption := false; exportConfirmed := false;
     showCoursesDialog := false; courseId := []; courseDetails := None |}.

Definition setCourseId (v : jsstring) (c : ResultsCard) : ResultsCard :=
  {| data := data c; showExportOption := showExportOption c;
     exportConfirmed := exportConfirmed c; showCoursesDialog := showCoursesDialog c;
     courseId := v; courseDetails := courseDetails c |}.

Definition setCourseDetails (v : CourseDetails) (c : ResultsCard) : ResultsCard :=
  {| data := data c; showExportOption := showExportOption c;
     exportConfirmed := exportConfirmed c; showCoursesDialog := showCoursesDialog c;
     courseId := courseId c; courseDetails := Some v |}.

Definition setExportConfirmed (v : bool) (c : ResultsCard) : ResultsCard :=
  {| data := data c; showExportOption := showExportOption c;
     exportConfirmed := v; showCoursesDialog := showCoursesDialog c;
     courseId := courseId c; courseDetails := courseDetails c |}.

Definition setShowCoursesDialog (v : bool) (c : ResultsCard) : ResultsCard :=
  {| data := data c; showExportOption := showExportOption c;
     exportConfirmed := exportConfirmed c; showCoursesDialog := v;
     courseId := courseId c; courseDetails := courseDetails c |}.

Definition handleCourseIdSubmit (c : ResultsCard) : ResultsCard :=
  if falsy (courseId c) then c
  else
    match find (fun course => streq (c_id course) (courseId c)) mockCourses with
    | Some course =>
        setCourseDetails
          {| id := c_id course;
             title := c_title course;
             instructor := js "Dr. Jane Smith";
             difficulty := c_difficulty course;
             rating := c_rating course;
             skills := map js ["Programming"; "Web Technologies"; "System Design"]%string;
             d_description := js "Cutting-edge course exploring the latest trends and techniques in web development, tailored for beginner learners." |}
          c
    | None =>
        setCourseDetails
          {| id := courseId c;
             title := js "Custom Course";
             instructor := js "Various Instructors";
             difficulty := js "Self-paced";
             rating := 4.5;
             skills := map js ["Programming"; "Web Technologies"]%string;
             d_description := js "A personalized course tailored to your learning objectives and skill level." |}
          c
    end.

(** ** The page: state, closures and host timers *)

Record FormData := {
  topic : jsstring;
  skillLevel : jsstring;
  aiEnhanced : bool
}.

(** [handleLoadingComplete] is created anew by every render of Index and
    reads the [formData] of that render.  [born] numbers the render, which
    gives the function its identity when React compares effect
    dependencies. *)
Record closure := {
  born : nat;
  seen_formData : option FormData
}.

Definition same_closure (a b : closure) : bool := Nat.eqb (born a) (born b).

(** The functions handed to [setInterval] and [setTimeout], each with what
    it captured. *)
Inductive callback : Type :=
| ProgressTick (timer : nat) (onComplete : closure)
| Complete (onComplete : closure)
| ExportDownload (data : Result).

(** A pending host timer: [remaining] time units until it is due;
    [period] is set for an interval. *)
Record timer := {
  timer_id : nat;
  remaining : nat;
  period : option nat;
  action : callback
}.

Record Toast := {
  toast_title : jsstring;
  toast_description : jsstring
}.

(** A click on a temporary anchor element. *)
Record Download := {
  href : jsstring;
  download : jsstring
}.

(** A mounted ProgressBar: its [progress] state, the [timer] variable of
    the effect last run (what its cleanup will clear) and the dependencies
    [isLoading, onComplete] of that run. *)
Record ProgressBar := {
  progress : Z;
  effect_timer : option nat;
  dep_isLoading : bool;
  dep_onComplete : closure
}.

Record World := {
  formData : option FormData;
  isLoading : bool;
  results : option Result;
  renders : nat;
  progressBar : option ProgressBar;
  resultsCard : option ResultsCard;
  timers : list timer;
  next_timer : nat;
  toasts : list Toast;
  downloads : list Download;
  (** every call of an [onComplete] so far, oldest first *)
  completions : list closure
}.

Definition setFormData (v : option FormData) (w : World) : World :=
  {| formData := v; isLoading := isLoading w; results := results w;
     renders := renders w; progressBar := progressBar w;
     resultsCard := resultsCard w; timers := timers w;
     next_timer := next_timer w; toasts := toasts w;
     downloads := downloads w; completions := completions w |}.

Definition setIsLoading (v : bool) (w : World) : World :=
  {| formData := formData w; isLoading := v; results := results w;
     renders := renders w; progressBar := progressBar w;
     resultsCard := resultsCard w; timers := timers w;
     next_timer := next_timer w; toasts := toasts w;
     downloads := downloads w; completions := completions w |}.

Definition setResults (v : option Result) (w : World) : World :=
  {| formData := formData w; isLoading := isLoading w; results := v;
     renders := renders w; progressBar := progressBar w;
     resultsCard := resultsCard w; timers := timers w;
     next_timer := next_timer w; toasts := toasts w;
     downloads := downloads w; completions := completions w |}.

Definition with_renders (v : nat) (w : World) : World :=
  {| formData := formData w; isLoading := isLoading w; results := results w;
     renders := v; progressBar := progressBar w;
     resultsCard := resultsCard w; timers := timers w;
     next_timer := next_timer w; toasts := toasts w;
     downloads := downloads w; completions := completions w |}.

Definition with_progressBar (v : option ProgressBar) (w : World) : World :=
  {| formData := formData w; isLoading := isLoading w; results := results w;
     renders := renders w; progressBar := v;
     resultsCard := resultsCard w; timers := timers w;
     next_timer := next_timer w; toasts := toasts w;
     downloads := downloads w; completions := completions w |}.

Definition with_resultsCard (v : option ResultsCard) (w : World) : World :=
  {| formData := formData w; isLoading := isLoading w; results := results w;
     renders := renders w; progressBar := progressBar w;
     resultsCard := v; timers := timers w;
     next_timer := next_timer w; toasts := toasts w;
     downloads := downloads w; completions := completions w |}.

Definition with_timers (v : list timer) (w : World) : World :=
  {| formData := formData w; isLoading := isLoading w; results := results w;
     renders := renders w; progressBar := progressBar w;
     resultsCard := resultsCard w; timers := v;
     next_timer := next_timer w; toasts := toasts w;
     downloads := downloads w; completions := completions w |}.

Definition with_next_timer (v : nat) (w : World) : World :=
  {| formData := formData w; isLoading := isLoading w; results := results w;
     renders := renders w; progressBar := progressBar w;
     resultsCard := resultsCard w; timers := timers w;
     next_timer := v; toasts := toasts w;
     downloads := downloads w; completions := completions w |}.

Definition toast (t : Toast) (w : World) : World :=
  {| formData := formData w; isLoading := isLoading w; results := results w;
     renders := renders w; progressBar := progressBar w;
     resultsCard := resultsCard w; timers := timers w;
     next_timer := next_timer w; toasts := toasts w ++ [t];
     downloads := downloads w; completions := completions w |}.

Definition click_download (d : Download) (w : World) : World :=
  {| formData := formData w; isLoading := isLoading w; results := results w;
     renders := renders w; progressBar := progressBar w;
     resultsCard := resultsCard w; timers := timers w;
     next_timer := next_timer w; toasts := toasts w;
     downloads := downloads w ++ [d]; completions := completions w |}.

Definition record_completion (c : closure) (w : World) : World :=
  {| formData := formData w; isLoading := isLoading w; results := results w;
     renders := renders w; progressBar := progressBar w;
     resultsCard := resultsCard w; timers := timers w;
     next_timer := next_timer w; toasts := toasts w;
     downloads := downloads w; completions := completions w ++ [c] |}.

Definition pending (i r : nat) (p : option nat) (f : callback) : timer :=
  {| timer_id := i; remaining := r; period := p; action := f |}.

(** [setInterval(f, ms)] and [setTimeout(f, ms)]: the new timer takes the
    next identifier, which [f] may mention (the [timer] variable of the
    effect is assigned before the interval first fires). *)
Definition setInterval (f : nat -> callback) (ms : nat) (w : World) : nat * World :=
  let i := next_timer w in
  (i, with_next_timer (S i)
        (with_timers (timers w ++
           [{| timer_id := i; remaining := ms; period := Some ms; action := f i |}]) w)).

Definition setTimeout (f : callback) (ms : nat) (w : World) : World :=
  let i := next_timer w in
  with_next_timer (S i)
    (with_timers (timers w ++
       [{| timer_id := i; remaining := ms; period := None; action := f |}]) w).

(** [clearInterval(t)]; [t] is [undefined] when no interval was started. *)
Definition clearInterval (t : option nat) (w : World) : World :=
  match t with
  | None => w
  | Some i => with_timers (filter (fun x => negb (Nat.eqb (timer_id x) i)) (timers w)) w
  end.

(** ** ProgressBar *)

(** The numbers of the effect.  They are integers and both divisions
    leave no remainder ([increment_exact] below), so the program's number
    arithmetic is integer arithmetic here. *)
Definition duration : Z := 3000.
Definition interval : Z := 30.
Definition increment : Z := 100 / (duration / interval).
Definition grace : nat := 500.

Definition setProgress (v : Z) (b : ProgressBar) : ProgressBar :=
  {| progress := v; effect_timer := effect_timer b;
     dep_isLoading := dep_isLoading b; dep_onComplete := dep_onComplete b |}.

(** The body of the interval: [setProgress(prev => ...)], whose updater
    also stops the interval and schedules [onComplete] when the bar is
    full.  [timer] and [onComplete] are those of the effect run that
    started the interval. *)
Definition ProgressBar_tick (timer : nat) (onComplete : closure) (w : World) : World :=
  match progressBar w with
  | None => w
  | Some b =>
      let newProgress := (progress b + increment)%Z in
      if (newProgress >=? 100)%Z then
        let w1 := clearInterval (Some timer) w in
        let w2 := setTimeout (Complete onComplete) grace w1 in
        with_progressBar (Some (setProgress 100 b)) w2
      else
        with_progressBar (Some (setProgress newProgress b)) w
  end.

(** The effect of [useEffect(..., [isLoading, onComplete])]. *)
Definition ProgressBar_effect (isLoading : bool) (onComplete : closure) (w : World) : World :=
  if isLoading then
    let (t, w1) := setInterval (fun t => ProgressTick t onComplete) (Z.to_nat interval) w in
    with_progressBar
      (Some {| progress := 0; effect_timer := Some t;
               dep_isLoading := isLoading; dep_onComplete := onComplete |}) w1
  else
    with_progressBar
      (Some {| progress := 0; effect_timer := None;
               dep_isLoading := isLoading; dep_onComplete := onComplete |}) w.

(** The cleanup returned by the effect. *)
Definition ProgressBar_cleanup (b : ProgressBar) (w : World) : World :=
  clearInterval (effect_timer b) w.

(** Index renders [isLoading && <ProgressBar isLoading onComplete />]:
    the bar is mounted, kept (its effect run again when a dependency
    changed, after the cleanup of the previous run) or unmounted. *)
Definition render_ProgressBar (onComplete : closure) (w : World) : World :=
  if isLoading w then
    match progressBar w with
    | None => ProgressBar_effect true onComplete w
    | Some b =>
        if Bool.eqb (dep_isLoading b) true && same_closure (dep_onComplete b) onComplete
        then w
        else ProgressBar_effect true onComplete (ProgressBar_cleanup b w)
    end
  else
    match progressBar w with
    | None => w
    | Some b => with_progressBar None (ProgressBar_cleanup b w)
    end.

(** Index renders [results && <ResultsCard data={results} />]. *)
Definition render_ResultsCard (w : World) : World :=
  match results w with
  | None => with_resultsCard None w
  | Some r =>
      match resultsCard w with
      | None => with_resultsCard (Some (ResultsCard_mount r)) w
      | Some c =>
          with_resultsCard
            (Some {| data := r; showExportOption := showExportOption c;
                     exportConfirmed := exportConfirmed c;
                     showCoursesDialog := showCoursesDialog c;
                     courseId := courseId c; courseDetails := courseDetails c |}) w
      end
  end.

(** ** Index *)

(** One render of Index after a state change: a fresh
    [handleLoadingComplete] over the current [formData], then the children. *)
Definition render (w : World) : World :=
  let n := S (renders w) in
  let handleLoadingComplete := {| born := n; seen_formData := formData w |} in
  render_ResultsCard (render_ProgressBar handleLoadingComplete (with_renders n w)).

Definition Index_mount : World :=
  {| formData := None; isLoading := false; results := None; renders := 1;
     progressBar := None; resultsCard := None; timers := []; next_timer := 1;
     toasts := []; downloads := []; completions := [] |}.

Definition handleFormSubmit (d : FormData) (w : World) : World :=
  let w := setFormData (Some d) w in
  let w := setIsLoading true w in
  let w := setResults None w in
  let w := toast {| toast_title := js "Request submitted";
                    toast_description := js "Generating learning path for " ++ topic d |} w in
  render w.

(** [handleLoadingComplete] as created by some render, called later. *)
Definition handleLoadingComplete (self : closure) (w : World) : World :=
  let w := record_completion self w in
  match seen_formData self with
  | None => w
  | Some fd =>
      let resultData := generateFakeData (topic fd) (skillLevel fd) in
      let w := setResults (Some resultData) w in
      let w := setIsLoading false w in
      let w := toast {| toast_title := js "Learning path ready!";
                        toast_description := js "Your personalized roadmap has been generated" |} w in
      render w
  end.

(** The inline handler of Index's "Start a new search". *)
Definition startNewSearch (w : World) : World :=
  render (setResults None (setFormData None w)).

(** ** CourseForm *)

(** The topics and the skill levels the two selectors offer. *)
Definition topics : list jsstring :=
  map js
  [ "Web Development"; "Mobile App Development"; "Data Science";
    "Machine Learning"; "Artificial Intelligence"; "Cloud Computing";
    "DevOps"; "Cybersecurity"; "Blockchain"; "Game Development";
    "Embedded Systems"; "Robotics"; "Computer Networks";
    "Database Management"; "UI/UX Design"; "Frontend Development";
    "Backend Development"; "Full Stack Development"; "Software Engineering";
    "Computer Architecture" ]%string.

Definition skillLevels : list jsstring :=
  map js ["beginner"; "intermediate"; "advanced"]%string.

Definition CourseForm_handleSubmit (onSubmit : FormData -> World -> World)
    (topic skillLevel : jsstring) (aiEnhanced : bool) (w : World) : World :=
  if falsy topic || falsy skillLevel then w
  else onSubmit {| topic := topic; skillLevel := skillLevel; aiEnhanced := aiEnhanced |} w.

(** ** ResultsCard handlers, on the mounted card *)

Definition on_card (f : ResultsCard -> ResultsCard) (w : World) : World :=
  match resultsCard w with
  | None => w
  | Some c => with_resultsCard (Some (f c)) w
  end.

Definition handleExportPDF (w : World) : World :=
  match resultsCard w with
  | None => w
  | Some c =>
      let w := with_resultsCard (Some (setExportConfirmed true c)) w in
      setTimeout (ExportDownload (data c)) 1000 w
  end.

(** The body of the export timeout: an anchor with an empty [data:] URL is
    clicked. *)
Definition export_download (d : Result) (w : World) : World :=
  click_download
    {| href := js "data:text/plain;charset=utf-8,";
       download := replace_whitespace_runs (r_topic d) ++ js "_roadmap.pdf" |} w.

(** What a [data:] URL carries: everything after the first comma. *)
Fixpoint data_url_payload (url : jsstring) : jsstring :=
  match url with
  | [] => []
  | c :: url' => if N.eqb c 44 then url' else data_url_payload url'
  end.

(** ** The event loop *)

Definition run (f : callback) (w : World) : World :=
  match f with
  | ProgressTick t onComplete => ProgressBar_tick t onComplete w
  | Complete onComplete => handleLoadingComplete onComplete w
  | ExportDownload d => export_download d w
  end.

Definition age (t : timer) : timer :=
  {| timer_id := timer_id t; remaining := pred (remaining t);
     period := period t; action := action t |}.

Definition rearm (p : nat) (t : timer) : timer :=
  {| timer_id := timer_id t; remaining := p; period := period t; action := action t |}.

Definition due (t : timer) : bool := Nat.eqb (remaining t) 0.

(** Timer [i] is due: unless a callback run just before cleared it, an
    interval is armed again, a timeout is dropped, and the callback runs. *)
Definition fire (w : World) (i : nat) : World :=
  match find (fun t => Nat.eqb (timer_id t) i) (timers w) with
  | None => w
  | Some t =>
      let w1 :=
        match period t with
        | Some p =>
            with_timers
              (map (fun x => if Nat.eqb (timer_id x) i then rearm p x else x) (timers w)) w
        | None => clearInterval (Some i) w
        end in
      run (action t) w1
  end.

(** One time unit passes; the timers that come due fire in the order in
    which they were created. *)
Definition tick (w : World) : World :=
  let aged := map age (timers w) in
  fold_left fire (map timer_id (filter due aged)) (with_timers aged w).

Fixpoint elapse (n : nat) (w : World) : World :=
  match n with
  | O => w
  | S n' => elapse n' (tick w)
  end.

(** What the user can do, each available only while its control is on
    the page. *)
Inductive event : Type :=
| Generate (topic skillLevel : jsstring) (aiEnhanced : bool)
| StartNewSearch
| ExportYes
| ExportNo
| ShowCourses
| TypeCourseId (v : jsstring)
| SubmitCourseId
| Reload
| Elapse (n : nat).

Definition truthy {A} (o : option A) : bool :=
  match o with Some _ => true | None => false end.

Definition card_shows (p : ResultsCard -> bool) (w : World) : bool :=
  match resultsCard w with
  | None => false
  | Some c => p c
  end.

Definition react (w : World) (e : event) : World :=
  match e with
  | Generate t s a =>
      if truthy (formData w) then w
      else CourseForm_handleSubmit handleFormSubmit t s a w
  | StartNewSearch =>
      if truthy (formData w) || truthy (results w) then startNewSearch w else w
  | ExportYes =>
      if card_shows (fun c => negb (exportConfirmed c)) w then handleExportPDF w else w
  | ExportNo =>
      if card_shows (fun c => negb (exportConfirmed c)) w
      then on_card (setExportConfirmed true) w else w
  | ShowCourses =>
      if card_shows (fun c => exportConfirmed c && negb (showCoursesDialog c)) w
      then on_card (setShowCoursesDialog true) w else w
  | TypeCourseId v =>
      if card_shows (fun c => exportConfirmed c && showCoursesDialog c) w
      then on_card (setCourseId v) w else w
  | SubmitCourseId =>
      if card_shows (fun c => exportConfirmed c && showCoursesDialog c) w
      then on_card handleCourseIdSubmit w else w
  | Reload =>
      if truthy (resultsCard w) then Index_mount else w
  | Elapse n => elapse n w
  end.

Definition play (es : list event) (w : World) : World := fold_left react es w.

(** The phase of the session as the page shows it. *)
Inductive Phase : Type := Idle | AwaitingResult | Ready.

Definition phase (w : World) : Phase :=
  if truthy (results w) then Ready
  else if truthy (formData w) then AwaitingResult
  else Idle.

(** The percentage shown, when the bar is on the page. *)
Definition percentage (w : World) : option Z :=
  option_map progress (progressBar w).

(** [lookup(id)]: the id is typed into the field of the card and the form
    is submitted; the answer is the detail panel, if any. *)
Definition lookup (i : jsstring) (c : ResultsCard) : option CourseDetails :=
  courseDetails (handleCourseIdSubmit (setCourseId i c)).

(** ** Reference notions the templates are compared with *)

(** Every space replaced by an underscore, one for one. *)
Definition spaces_to_underscores (s : jsstring) : jsstring :=
  map (fun c => if N.eqb c SPACE then UNDERSCORE else c) s.

(** [collapsed s r]: [r] is [s] with every maximal run of whitespace
    replaced by a single underscore. *)
Inductive collapsed : jsstring -> jsstring -> Prop :=
| collapsed_nil : collapsed [] []
| collapsed_keep c s r :
    is_whitespace c = false ->
    collapsed s r ->
    collapsed (c :: s) (c :: r)
| collapsed_run c gap s r :
    is_whitespace c = true ->
    forallb is_whitespace gap = true ->
    match s with [] => True | d :: _ => is_whitespace d = false end ->
    collapsed s r ->
    collapsed (c :: gap ++ s) (UNDERSCORE :: r).

(** The only whitespace of [s] is single spaces, none next to another. *)
Fixpoint single_spaced (s : jsstring) : bool :=
  match s with
  | [] => true
  | c :: s' =>
      (if is_whitespace c
       then N.eqb c SPACE && match s' with [] => true | d :: _ => negb (is_whitespace d) end
       else true)
      && single_spaced s'
  end.



(** ** Forgetting the aiEnhanced flag

    [forget_*] resets the flag wherever a world or an event carries it;
    what survives is what an observer who cannot see the flag sees. *)

Definition forget_FormData (d : FormData) : FormData :=
  {| topic := topic d; skillLevel := skillLevel d; aiEnhanced := false |}.

Definition forget_closure (c : closure) : closure :=
  {| born := born c; seen_formData := option_map forget_FormData (seen_formData c) |}.

Definition forget_callback (f : callback) : callback :=
  match f with
  | ProgressTick t c => ProgressTick t (forget_closure c)
  | Complete c => Complete (forget_closure c)
  | ExportDownload d => ExportDownload d
  end.

Definition forget_timer (t : timer) : timer :=
  {| timer_id := timer_id t; remaining := remaining t; period := period t;
     action := forget_callback (action t) |}.

Definition forget_ProgressBar (b : ProgressBar) : ProgressBar :=
  {| progress := progress b; effect_timer := effect_timer b;
     dep_isLoading := dep_isLoading b;
     dep_onComplete := forget_closure (dep_onComplete b) |}.

Definition forget (w : World) : World :=
  {| formData := option_map forget_FormData (formData w);
     isLoading := isLoading w; results := results w; renders := renders w;
     progressBar := option_map forget_ProgressBar (progressBar w);
     resultsCard := resultsCard w;
     timers := map forget_timer (timers w);
     next_timer := next_timer w; toasts := toasts w; downloads := downloads w;
     completions := map forget_closure (completions w) |}.

Definition forget_event (e : event) : event :=
  match e with
  | Generate t s _ => Generate t s false
  | _ => e
  end.

(** ** The worlds of one undisturbed progress stage

    After the form was accepted on a fresh page: the bar shows [p] and its
    interval is due in [r] time units ... *)
Definition loading (d : FormData) (p : Z) (r : nat) : World :=
  let onComplete := {| born := 2; seen_formData := Some d |} in
  {| formData := Some d; isLoading := true; results := None; renders := 2;
     progressBar :=
       Some {| progress := p; effect_timer := Some 1%nat;
               dep_isLoading := true; dep_onComplete := onComplete |};
     resultsCard := None;
     timers := [ {| timer_id := 1; remaining := r; period := Some 30%nat;
                    action := ProgressTick 1 onComplete |} ];
     next_timer := 2;
     toasts := [ {| toast_title := js "Request submitted";
                    toast_description := js "Generating learning path for " ++ topic d |} ];
     downloads := []; completions := [] |}.

(** ... then the bar is full and [onComplete] is due in [r] time units ... *)
Definition full (d : FormData) (r : nat) : World :=
  let onComplete := {| born := 2; seen_formData := Some d |} in
  {| formData := Some d; isLoading := true; results := None; renders := 2;
     progressBar :=
       Some {| progress := 100; effect_timer := Some 1%nat;
               dep_isLoading := true; dep_onComplete := onComplete |};
     resultsCard := None;
     timers := [ {| timer_id := 2; remaining := r; period := None;
                    action := Complete onComplete |} ];
     next_timer := 3;
     toasts := [ {| toast_title := js "Request submitted";
                    toast_description := js "Generating learning path for " ++ topic d |} ];
     downloads := []; completions := [] |}.

(** ... and at last the result is on the page. *)
Definition ready (d : FormData) : World :=
  let r := generateFakeData (topic d) (skillLevel d) in
  {| formData := Some d; isLoading := false; results := Some r; renders := 3;
     progressBar := None;
     resultsCard := Some (ResultsCard_mount r);
     timers := [];
     next_timer := 3;
     toasts := [ {| toast_title := js "Request submitted";
                    toast_description := js "Generating learning path for " ++ topic d |};
                 {| toast_title := js "Learning path ready!";
                    toast_description := js "Your personalized roadmap has been generated" |} ];
     downloads := [];
     completions := [ {| born := 2; seen_formData := Some d |} ] |}.

(** The worlds after "Start a new search" was clicked while the bar was
    full: the form data is gone, yet the timeout holding the
    [onComplete] of the earlier render is still pending (due in [r]),
    beside the interval of the effect that the click made run again
    (due in [q], the bar at [p]). *)
Definition reset_in_grace (d : FormData) (r : nat) (p : Z) (q : nat) : World :=
  let stale := {| born := 2; seen_formData := Some d |} in
  let fresh := {| born := 3; seen_formData := None |} in
  {| formData := None; isLoading := true; results := None; renders := 3;
     progressBar :=
       Some {| progress := p; effect_timer := Some 3%nat;
               dep_isLoading := true; dep_onComplete := fresh |};
     resultsCard := None;
     timers := [ pending 2 r None (Complete stale);
                 pending 3 q (Some 30%nat) (ProgressTick 3 fresh) ];
     next_timer := 4;
     toasts := [ {| toast_title := js "Request submitted";
                    toast_description := js "Generating learning path for " ++ topic d |} ];
     downloads := []; completions := [] |}.

(** Where that ends: the result of the abandoned request on the page. *)
Definition result_after_reset (d : FormData) : World :=
  let r := generateFakeData (topic d) (skillLevel d) in
  {| formData := None; isLoading := false; results := Some r; renders := 4;
     progressBar := None;
     resultsCard := Some (ResultsCard_mount r);
     timers := [];
     next_timer := 4;
     toasts := [ {| toast_title := js "Request submitted";
                    toast_description := js "Generating learning path for " ++ topic d |};
                 {| toast_title := js "Learning path ready!";
                    toast_description := js "Your personalized roadmap has been generated" |} ];
     downloads := [];
     completions := [ {| born := 2; seen_formData := Some d |} ] |}.

(** ** ResultsCard: the resource bundle and the roadmap view *)

Record Resources := {
  books : list jsstring;
  courses : list jsstring;
  communities : list jsstring;
  tools : list jsstring;
  practice : list jsstring
}.

Definition transformResources (data : Result) : Resources :=
  let topic := r_topic data in
  {| books :=
       [ js "Introduction to " ++ topic;
         js "Advanced " ++ topic ++ js " Techniques";
         js "Mastering " ++ topic ];
     courses :=
       [ topic ++ js " for Beginners";
         js "Professional " ++ topic ++ js " Masterclass" ];
     communities :=
       [ js "Stack Overflow";
         js "Reddit";
         topic ++ js " Discord Servers" ];
     tools :=
       [ topic ++ js " Development Environment";
         js "Version Control";
         js "Testing Frameworks" ];
     practice :=
       [ js "Codecademy";
         js "Exercism";
         js "LeetCode" ] |}.

(** What the [RoadmapItem] helper of ResultsCard puts on the page for one
    item: the left margin in pixels, whether the branch mark is drawn, the
    colour class of the text, the text, and the description when there is
    one to show.  The items of this page have no [highlight], [italic] or
    [timeframe] member, so the colour class is the only class the text
    gets and no time frame follows it. *)
Record Row := {
  marginLeft : nat;
  branch : bool;
  text_class : jsstring;
  row_text : jsstring;
  row_description : option jsstring
}.

(** [item.color ? `text-${item.color}` : 'text-cyan-400']. *)
Definition color_class (c : jsstring) : jsstring :=
  if falsy c then js "text-cyan-400" else js "text-" ++ c.

(** [item.description && ...]: a missing or empty description shows
    nothing. *)
Definition shown_description (d : option jsstring) : option jsstring :=
  match d with
  | Some s => if falsy s then None else Some s
  | None => None
  end.

(** The rows of an item and, below it, of its sub-items one level
    deeper, in the order of the page. *)
Fixpoint RoadmapItem_rows (level : nat) (item : RoadmapItem) : list Row :=
  match item with
  | Item t c d subs =>
      {| marginLeft := (level * 20)%nat;
         branch := Nat.ltb 0 level;
         text_class := color_class c;
         row_text := t;
         row_description := shown_description d |}
      :: match subs with
         | None => []
         | Some l =>
             (fix below (l : list RoadmapItem) : list Row :=
                match l with
                | [] => []
                | x :: l' => RoadmapItem_rows (S level) x ++ below l'
                end) l
         end
  end.

(** The "Learning Path" section: every phase at level 0. *)
Definition learningPath_rows (data : Result) : list Row :=
  flat_map (RoadmapItem_rows 0) (transformLearningPath data).




(** [pieces.join(' ')], the inverse of [split(' ')]. *)
Fixpoint join_space (pieces : list jsstring) : jsstring :=
  match pieces with
  | [] => []
  | x :: rest =>
      match rest with
      | [] => x
      | _ :: _ => x ++ SPACE :: join_space rest
      end
  end.

(** ** A progress run on any page

    [running W i c p r]: on the page [W], the bar shows [p] and its
    interval [i], started by the effect that was given [c] as
    [onComplete], is the only timer, due in [r] time units. *)
Definition running (W : World) (i : nat) (c : closure) (p : Z) (r : nat) : World :=
  with_progressBar
    (Some {| progress := p; effect_timer := Some i;
             dep_isLoading := true; dep_onComplete := c |})
    (with_timers [pending i r (Some 30%nat) (ProgressTick i c)] W).

(** [finishing W i c r]: the bar is full, the interval is gone and the
    timeout for [c], which took the next identifier, is due in [r]. *)
Definition finishing (W : World) (i : nat) (c : closure) (r : nat) : World :=
  with_progressBar
    (Some {| progress := 100; effect_timer := Some i;
             dep_isLoading := true; dep_onComplete := c |})
    (with_timers [pending (next_timer W) r None (Complete c)]
       (with_next_timer (S (next_timer W)) W)).

(** ** What every page keeps

    The card shows the stored results, the bar is on the page exactly
    while [isLoading] is set, never together with results, and shows
    between 0 and 100. *)
Definition consistent (w : World) : Prop :=
  option_map data (resultsCard w) = results w /\
  isLoading w = truthy (progressBar w) /\
  truthy (results w) && isLoading w = false /\
  (forall b, progressBar w = Some b -> (0 <= progress b <= 100)%Z).

(** The pending timers have distinct identifiers, all below the next one
    to be given out. *)
Definition ids_fresh (w : World) : Prop :=
  NoDup (map timer_id (timers w)) /\
  (forall t, In t (timers w) -> (timer_id t < next_timer w)%nat).

(** A pending interval has period 30 and is the one the effect of the
    mounted bar started, with the [onComplete] that effect was given. *)
Definition intervals_owned (w : World) : Prop :=
  forall t p, In t (timers w) -> period t = Some p ->
    p = 30%nat /\
    exists b, progressBar w = Some b /\
              effect_timer b = Some (timer_id t) /\
              action t = ProgressTick (timer_id t) (dep_onComplete b).

Definition timers_owned (w : World) : Prop := ids_fresh w /\ intervals_owned w.

Definition no_intervals (w : World) : Prop :=
  forall t, In t (timers w) -> period t = None.

Definition is_interval (t : timer) : bool := truthy (period t).

(** ** Shapes of the looked-up lists *)

(** Seven entries, the i-th starting with the digit i and ". ". *)
Definition numbered_phases (l : list jsstring) : bool :=
  Nat.eqb (List.length l) 7 &&
  forallb (fun ie => startsWith (N.of_nat (49 + fst ie) :: js ". ") (snd ie))
          (combine (seq 0 7) l).

(** Four entries, none empty. *)
Definition four_projects (l : list jsstring) : bool :=
  Nat.eqb (List.length l) 4 && forallb (fun e => negb (falsy e)) l.

(** ** What every card keeps

    The course table is open only after the export prompt was answered;
    an id was typed and details are shown only with the table open; shown
    details carry a non-empty id and are those of a catalogue entry or the
    placeholder. *)
Definition card_ok (c : ResultsCard) : Prop :=
  (showCoursesDialog c = true -> exportConfirmed c = true) /\
  (falsy (courseId c) = false -> showCoursesDialog c = true) /\
  (forall d, courseDetails c = Some d ->
     showCoursesDialog c = true /\
     falsy (id d) = false /\
     ((exists course, In course mockCourses /\
                      id d = c_id course /\ title d = c_title course) \/
      title d = js "Custom Course")).

Definition page_card_ok (w : World) : Prop :=
  forall c, resultsCard w = Some c -> card_ok c.

(** * Properties *)

(** ** Strings *)

Lemma streq_refl (a : jsstring) : streq a a = true.
Proof.
  induction a as [|x a IH]; simpl; [reflexivity|].
  now rewrite N.eqb_refl.
Qed.

Lemma streq_eq (a b : jsstring) : streq a b = true <-> a = b.
Proof.
  split.
  - revert b; induction a as [|x a IH]; intros [|y b] H; simpl in H;
      try discriminate; [reflexivity|].
    apply andb_true_iff in H as [Hx Ha].
    apply N.eqb_eq in Hx. now rewrite Hx, (IH b Ha).
  - intros ->. apply streq_refl.
Qed.

Lemma streq_neq (a b : jsstring) : streq a b = false <-> a <> b.
Proof.
  rewrite <- streq_eq. now destruct (streq a b).
Qed.





Lemma split_from_first (first rest acc : jsstring) :
  existsb (N.eqb SPACE) first = false ->
  split_from acc (first ++ SPACE :: rest) = (rev acc ++ first) :: split_from [] rest.
Proof.
  revert acc; induction first as [|c first IH]; intros acc H;
    cbn [split_from app existsb] in *.
  - now rewrite N.eqb_refl, app_nil_r.
  - apply orb_false_iff in H as [Hc Hf].
    rewrite N.eqb_sym in Hc. rewrite Hc, (IH _ Hf). cbn [rev].
    now rewrite <- app_assoc.
Qed.

(** A string with a space splits at its first one. *)
Lemma first_space (s : jsstring) :
  existsb (N.eqb SPACE) s = true ->
  exists first rest,
    s = first ++ SPACE :: rest /\ existsb (N.eqb SPACE) first = false.
Proof.
  induction s as [|c s IH]; cbn [existsb]; intros H; [discriminate|].
  destruct (N.eqb SPACE c) eqn:Hc.
  - apply N.eqb_eq in Hc; subst c. now exists [], s.
  - destruct (IH H) as (first & rest & -> & Hf).
    exists (c :: first), rest. cbn [existsb app]. now rewrite Hc, Hf.
Qed.

(** ** generateFakeData *)

(** A topic that is neither a key of the table nor a member of
    [Object.prototype] gets the generic roadmap; a key gets its own list. *)
Lemma learningPath_lookup (topic skillLevel : jsstring) :
  existsb (streq topic) Object_prototype_members = false ->
  learningPath (generateFakeData topic skillLevel) =
    match own_property learningPathMap topic with
    | Some l => Own l
    | None => Own defaultLearningPath
    end.
Proof.
  intros H. unfold generateFakeData; cbn [learningPath]; unfold get.
  destruct (own_property learningPathMap topic); [reflexivity|].
  now rewrite H.
Qed.

Lemma projects_lookup (topic skillLevel : jsstring) :
  existsb (streq skillLevel) Object_prototype_members = false ->
  projects (generateFakeData topic skillLevel) =
    match own_property projectsByLevel skillLevel with
    | Some l => Own l
    | None => Own beginnerProjects
    end.
Proof.
  intros H. unfold generateFakeData; cbn [projects]; unfold get at 1.
  destruct (own_property projectsByLevel skillLevel); [reflexivity|].
  now rewrite H.
Qed.

(** What the form can send never meets an inherited key: for the twenty
    topics and three skill levels on offer the lookups behave as tables. *)
Lemma offered_values_are_not_inherited :
  forallb (fun t => negb (existsb (streq t) Object_prototype_members)) topics = true /\
  forallb (fun s => negb (existsb (streq s) Object_prototype_members)) skillLevels = true /\
  List.length topics = 20%nat.
Proof. repeat split. Qed.









(** C10: for a topic with a space, [careerOpportunities] has five entries;
    the first is the part of the topic before its first space followed by
    " Developer at tech companies", the other four are the same for every
    topic and skill level. *)
Theorem careerOpportunities_first_word (topic skillLevel : jsstring) :
  existsb (N.eqb SPACE) topic = true ->
  exists first rest,
    topic = first ++ SPACE :: rest /\
    existsb (N.eqb SPACE) first = false /\
    careerOpportunities (generateFakeData topic skillLevel) =
      [ first ++ js " Developer at tech companies";
        js "Freelance consultant for small businesses";
        js "Technical lead at startups";
        js "Senior specialist at enterprise organizations";
        js "Technical educator or course creator" ] /\
    List.length (careerOpportunities (generateFakeData topic skillLevel)) = 5%nat /\
    forall topic' skillLevel',
      tl (careerOpportunities (generateFakeData topic' skillLevel')) =
      tl (careerOpportunities (generateFakeData topic skillLevel)).
Proof.
  intros H. destruct (first_space _ H) as (first & rest & -> & Hf).
  exists first, rest. repeat split; try assumption.
  unfold generateFakeData, split_space; cbn [careerOpportunities].
  now rewrite (split_from_first first rest [] Hf).
Qed.

Lemma careerOpportunities_first_word_witness :
  exists first rest,
    js "Web Development" = first ++ SPACE :: rest /\
    existsb (N.eqb SPACE) first = false /\
    careerOpportunities (generateFakeData (js "Web Development") (js "beginner")) =
      [ first ++ js " Developer at tech companies";
        js "Freelance consultant for small businesses";
        js "Technical lead at startups";
        js "Senior specialist at enterprise organizations";
        js "Technical educator or course creator" ] /\
    List.length (careerOpportunities (generateFakeData (js "Web Development") (js "beginner"))) = 5%nat /\
    forall topic' skillLevel',
      tl (careerOpportunities (generateFakeData topic' skillLevel')) =
      tl (careerOpportunities (generateFakeData (js "Web Development") (js "beginner"))).
Proof.
  apply (careerOpportunities_first_word (js "Web Development") (js "beginner")).
  reflexivity.
Defined.

(** The example of C10, evaluated. *)
Example careerOpportunities_web_development :
  hd_error (careerOpportunities (generateFakeData (js "Web Development") (js "beginner")))
    = Some (js "Web Developer at tech companies").
Proof. reflexivity. Qed.

(** ** CourseForm: the intake guard *)

(** C4: with an empty topic or an empty skill level the submit handler
    returns without calling [onSubmit], whatever [onSubmit] is: the world
    (formData, results, toasts, timers) is left as it was, and so an idle
    page stays idle. *)
Theorem empty_field_rejected
    (onSubmit : FormData -> World -> World)
    (t s : jsstring) (a : bool) (w : World) :
  t = [] \/ s = [] ->
  CourseForm_handleSubmit onSubmit t s a w = w /\
  react w (Generate t s a) = w /\
  phase (react Index_mount (Generate t s a)) = Idle.
Proof.
  intros H.
  assert (E : forall f, CourseForm_handleSubmit f t s a w = w).
  { intros f. unfold CourseForm_handleSubmit.
    destruct H as [-> | ->]; [reflexivity|].
    now rewrite orb_true_r. }
  assert (E0 : CourseForm_handleSubmit handleFormSubmit t s a Index_mount = Index_mount).
  { unfold CourseForm_handleSubmit.
    destruct H as [-> | ->]; [reflexivity|].
    now rewrite orb_true_r. }
  repeat split.
  - apply E.
  - unfold react. destruct (truthy (formData w)); [reflexivity | apply E].
  - unfold react. cbn [truthy formData Index_mount]. now rewrite E0.
Qed.

Lemma empty_field_rejected_witness :
  CourseForm_handleSubmit handleFormSubmit [] (js "beginner") false Index_mount
    = Index_mount /\
  react Index_mount (Generate [] (js "beginner") false) = Index_mount /\
  phase (react Index_mount (Generate [] (js "beginner") false)) = Idle.
Proof.
  apply (empty_field_rejected handleFormSubmit [] (js "beginner") false Index_mount).
  left; reflexivity.
Defined.

(** The two rejected submissions and the accepted one of the spec. *)
Example submit_without_topic :
  phase (react Index_mount (Generate (js "") (js "beginner") false)) = Idle.
Proof. reflexivity. Qed.

Example submit_without_skillLevel :
  phase (react Index_mount (Generate (js "Web Development") (js "") false)) = Idle.
Proof. reflexivity. Qed.

Example submit_accepted :
  let w := react Index_mount (Generate (js "Web Development") (js "beginner") true) in
  phase w = AwaitingResult /\
  map toast_description (toasts w) = [js "Generating learning path for Web Development"].
Proof. split; reflexivity. Qed.

(** ** ResultsCard: course lookup *)

(** C8 as stated fails at the empty id: the handler returns before it looks
    anything up, and no record, placeholder or other, is produced. *)
Lemma lookup_empty_id :
  ~ exists d,
      lookup (js "") (ResultsCard_mount (generateFakeData (js "Web Development") (js "beginner")))
        = Some d /\ id d = js "".
Proof.
  intros (d & H & _). discriminate H.
Qed.

(** C8, amended: for every non-empty id the lookup yields a record with
    that id; it carries the title, rating and difficulty of the catalogue
    entry with that id together with the fixed instructor, skills and
    description, or, when no entry has the id, it is the "Custom Course"
    placeholder.  The catalogue has five entries. *)
Theorem lookup_nonempty_id (i : jsstring) (c : ResultsCard) :
  i <> [] ->
  List.length mockCourses = 5%nat /\
  exists d,
    lookup i c = Some d /\ id d = i /\
    ( (exists course,
         In course mockCourses /\ c_id course = i /\
         title d = c_title course /\
         rating d = c_rating course /\
         difficulty d = c_difficulty course /\
         instructor d = js "Dr. Jane Smith" /\
         skills d = map js ["Programming"; "Web Technologies"; "System Design"]%string /\
         d_description d = js "Cutting-edge course exploring the latest trends and techniques in web development, tailored for beginner learners.")
      \/
      ((forall course, In course mockCourses -> c_id course <> i) /\
       title d = js "Custom Course" /\
       instructor d = js "Various Instructors" /\
       difficulty d = js "Self-paced" /\
       rating d = 4.5%Q /\
       skills d = map js ["Programming"; "Web Technologies"]%string /\
       d_description d = js "A personalized course tailored to your learning objectives and skill level.") ).
Proof.
  intros Hi. split; [reflexivity|].
  unfold lookup, handleCourseIdSubmit.
  cbn [courseId setCourseId].
  destruct i as [|x i]; [contradiction|]. cbn [falsy].
  destruct (find (fun course => streq (c_id course) (x :: i)) mockCourses)
    as [course|] eqn:F.
  - apply find_some in F as [Hin Heq]. apply streq_eq in Heq.
    eexists; split; [reflexivity|]. cbn [id]. split; [assumption|].
    left. exists course. repeat split; assumption.
  - eexists; split; [reflexivity|]. cbn [id]. split; [reflexivity|].
    right. repeat split.
    intros course Hin. apply streq_neq. exact (find_none _ _ F course Hin).
Qed.

Lemma lookup_nonempty_id_witness :
  List.length mockCourses = 5%nat /\
  exists d,
    lookup (js "132") (ResultsCard_mount (generateFakeData (js "Web Development") (js "beginner")))
      = Some d /\ id d = js "132" /\
    ( (exists course,
         In course mockCourses /\ c_id course = js "132" /\
         title d = c_title course /\
         rating d = c_rating course /\
         difficulty d = c_difficulty course /\
         instructor d = js "Dr. Jane Smith" /\
         skills d = map js ["Programming"; "Web Technologies"; "System Design"]%string /\
         d_description d = js "Cutting-edge course exploring the latest trends and techniques in web development, tailored for beginner learners.")
      \/
      ((forall course, In course mockCourses -> c_id course <> js "132") /\
       title d = js "Custom Course" /\
       instructor d = js "Various Instructors" /\
       difficulty d = js "Self-paced" /\
       rating d = 4.5%Q /\
       skills d = map js ["Programming"; "Web Technologies"]%string /\
       d_description d = js "A personalized course tailored to your learning objectives and skill level.") ).
Proof.
  apply (lookup_nonempty_id (js "132")
           (ResultsCard_mount (generateFakeData (js "Web Development") (js "beginner")))).
  discriminate.
Defined.

(** The two lookups of the spec. *)
Example lookup_132 (c : ResultsCard) :
  option_map (fun d => (id d, title d)) (lookup (js "132") c)
    = Some (js "132", js "Web Development With Rust").
Proof. reflexivity. Qed.

Example lookup_999999 (c : ResultsCard) :
  option_map (fun d => (id d, title d)) (lookup (js "999999") c)
    = Some (js "999999", js "Custom Course").
Proof. reflexivity. Qed.

(** ** ResultsCard: the presentation templates *)




(** ** The event loop with a single pending timer *)

Lemma elapse_add (n m : nat) (w : World) :
  elapse (n + m) w = elapse m (elapse n w).
Proof.
  revert w; induction n as [|n IH]; intros w; [reflexivity|].
  cbn [Nat.add elapse]. apply IH.
Qed.

(** Nothing pending: time passes without effect. *)
Lemma tick_quiet (w : World) : timers w = [] -> tick w = w.
Proof.
  destruct w; cbn; intros ->; reflexivity.
Qed.

Lemma elapse_quiet (n : nat) (w : World) : timers w = [] -> elapse n w = w.
Proof.
  intros H; induction n as [|n IH]; [reflexivity|].
  cbn [elapse]. now rewrite (tick_quiet w H).
Qed.

Lemma tick_wait (i r : nat) (p : option nat) (f : callback) (w : World) :
  tick (with_timers [pending i (S (S r)) p f] w) = with_timers [pending i (S r) p f] w.
Proof. reflexivity. Qed.

Lemma elapse_wait (k i r : nat) (p : option nat) (f : callback) (w : World) :
  elapse k (with_timers [pending i (k + S r) p f] w)
    = with_timers [pending i (S r) p f] w.
Proof.
  revert r; induction k as [|k IH]; intros r; [reflexivity|].
  cbn [elapse]. replace (S k + S r)%nat with (S (S (k + r))) by lia.
  rewrite tick_wait. replace (S (k + r)) with (k + S r)%nat by lia.
  apply IH.
Qed.

Lemma tick_timeout (i : nat) (f : callback) (w : World) :
  tick (with_timers [pending i 1 None f] w) = run f (with_timers [] w).
Proof.
  unfold tick, fire; cbn. rewrite Nat.eqb_refl. reflexivity.
Qed.

Lemma tick_interval (i p : nat) (f : callback) (w : World) :
  tick (with_timers [pending i 1 (Some p) f] w)
    = run f (with_timers [pending i p (Some p) f] w).
Proof.
  unfold tick, fire; cbn. rewrite Nat.eqb_refl. reflexivity.
Qed.

(** ** ProgressBar: one undisturbed run *)

(** Both divisions of [increment] are exact, so the arithmetic on
    integers is the arithmetic of the program's numbers. *)
Lemma increment_exact :
  (duration = interval * (duration / interval) /\
   100 = increment * (duration / interval) /\
   duration / interval = 100 /\ increment = 1)%Z.
Proof. repeat split. Qed.

Section ProgressRun.

Variable d : FormData.

Lemma loading_timers (p : Z) (r : nat) :
  loading d p r
    = with_timers
        [pending 1 r (Some 30%nat)
           (ProgressTick 1 {| born := 2; seen_formData := Some d |})]
        (loading d p 0).
Proof. reflexivity. Qed.

Lemma full_timers (r : nat) :
  full d r
  = with_timers [pending 2 r None (Complete {| born := 2; seen_formData := Some d |})]
      (full d 0).
Proof. reflexivity. Qed.

Lemma loading_wait (p : Z) (k : nat) :
  (k < 30)%nat -> elapse k (loading d p 30) = loading d p (30 - k).
Proof.
  intros Hk. rewrite (loading_timers p 30).
  replace 30%nat with (k + S (29 - k))%nat at 1 by lia.
  rewrite elapse_wait. replace (30 - k)%nat with (S (29 - k)) by lia.
  reflexivity.
Qed.

(** A tick below 100 adds [increment] and leaves the interval running. *)
Lemma loading_tick (p : Z) :
  (p + increment < 100)%Z ->
  elapse 30 (loading d p 30) = loading d (p + increment) 30.
Proof.
  intros Hp. change 30%nat with (29 + 1)%nat at 1.
  rewrite elapse_add, (loading_wait p 29) by lia.
  change (30 - 29)%nat with 1%nat. cbn [elapse].
  rewrite (loading_timers p 1), tick_interval.
  cbn [run]. unfold ProgressBar_tick. cbn [progressBar with_timers loading progress].
  destruct (Z.geb_spec (p + increment) 100) as [H|_]; [lia|].
  reflexivity.
Qed.

(** The tick that reaches 100 clamps, stops the interval and schedules
    [onComplete] after the grace delay. *)
Lemma loading_last (p : Z) :
  (p + increment >= 100)%Z ->
  elapse 30 (loading d p 30) = full d grace.
Proof.
  intros Hp. change 30%nat with (29 + 1)%nat at 1.
  rewrite elapse_add, (loading_wait p 29) by lia.
  change (30 - 29)%nat with 1%nat. cbn [elapse].
  rewrite (loading_timers p 1), tick_interval.
  cbn [run]. unfold ProgressBar_tick. cbn [progressBar with_timers loading progress].
  destruct (Z.geb_spec (p + increment) 100) as [_|H]; [|lia].
  reflexivity.
Qed.

Lemma loading_ticks (q : nat) :
  (q <= 99)%nat ->
  elapse (30 * q) (loading d 0 30) = loading d (increment * Z.of_nat q) 30.
Proof.
  induction q as [|q IH]; intros Hq.
  - reflexivity.
  - replace (30 * S q)%nat with (30 * q + 30)%nat by lia.
    rewrite elapse_add, IH by lia.
    rewrite loading_tick.
    + f_equal. lia.
    + destruct increment_exact as (_ & _ & _ & ->). lia.
Qed.

Lemma loading_at (n : nat) :
  (n < 3000)%nat ->
  elapse n (loading d 0 30)
    = loading d (increment * Z.of_nat (n / 30)) (30 - n mod 30).
Proof.
  intros Hn. rewrite (Nat.div_mod_eq n 30) at 1.
  assert (n / 30 < 100)%nat by (apply Nat.Div0.div_lt_upper_bound; lia).
  assert (n mod 30 < 30)%nat by (apply Nat.mod_upper_bound; lia).
  rewrite elapse_add, loading_ticks by lia.
  now apply loading_wait.
Qed.

Lemma full_at_3000 : elapse 3000 (loading d 0 30) = full d grace.
Proof.
  change 3000%nat with (30 * 99 + 30)%nat.
  rewrite elapse_add, loading_ticks by lia.
  apply loading_last. destruct increment_exact as (_ & _ & _ & ->). lia.
Qed.

Lemma full_wait (k : nat) :
  (k < 500)%nat -> elapse k (full d grace) = full d (grace - k).
Proof.
  intros Hk. rewrite (full_timers grace). unfold grace.
  replace 500%nat with (k + S (499 - k))%nat at 1 by lia.
  rewrite elapse_wait. replace (500 - k)%nat with (S (499 - k)) by lia.
  reflexivity.
Qed.

(** The grace timeout calls [onComplete], which stores the result and
    takes the bar off the page. *)
Lemma full_done : elapse grace (full d grace) = ready d.
Proof.
  unfold grace at 1. change 500%nat with (499 + 1)%nat at 1.
  rewrite elapse_add, full_wait by lia.
  unfold grace. change (500 - 499)%nat with 1%nat. cbn [elapse].
  rewrite (full_timers 1), tick_timeout.
  reflexivity.
Qed.

Lemma ready_at (n : nat) :
  (3500 <= n)%nat -> elapse n (loading d 0 30) = ready d.
Proof.
  intros Hn. replace n with (3000 + (500 + (n - 3500)))%nat by lia.
  rewrite elapse_add, full_at_3000, elapse_add.
  change 500%nat with grace. rewrite full_done.
  now apply elapse_quiet.
Qed.

Lemma full_at (n : nat) :
  (3000 <= n < 3500)%nat ->
  elapse n (loading d 0 30) = full d (3500 - n).
Proof.
  intros Hn. replace n with (3000 + (n - 3000))%nat at 1 by lia.
  rewrite elapse_add, full_at_3000, full_wait by lia.
  f_equal. unfold grace. lia.
Qed.

End ProgressRun.

Lemma accepted (t s : jsstring) (a : bool) :
  falsy t = false -> falsy s = false ->
  react Index_mount (Generate t s a)
    = loading {| topic := t; skillLevel := s; aiEnhanced := a |} 0 30.
Proof.
  intros Ht Hs. unfold react. cbn [truthy formData Index_mount].
  unfold CourseForm_handleSubmit. rewrite Ht, Hs. reflexivity.
Qed.

(** C2: once the form is accepted the bar starts at 0 and, undisturbed,
    shows [increment] times the number of 30-unit ticks so far; the tick at
    3000 makes it exactly 100 and stops the interval; only the grace
    timeout is then pending, and when its 500 units are over [onComplete]
    is called, once and never again, the bar having shown exactly 100 until
    then. *)
Theorem progress_completes_once (t s : jsstring) (a : bool) :
  falsy t = false -> falsy s = false ->
  let onComplete :=
    {| born := 2;
       seen_formData := Some {| topic := t; skillLevel := s; aiEnhanced := a |} |} in
  let w0 := react Index_mount (Generate t s a) in
  percentage w0 = Some 0%Z /\
  (forall n, (n <= 3000)%nat ->
     percentage (elapse n w0) = Some (increment * Z.of_nat (n / 30))%Z) /\
  (forall n, (n < 3000)%nat ->
     timers (elapse n w0)
       = [pending 1 (30 - n mod 30) (Some 30%nat) (ProgressTick 1 onComplete)]) /\
  (forall n, (3000 <= n < 3500)%nat ->
     percentage (elapse n w0) = Some 100%Z /\
     timers (elapse n w0) = [pending 2 (3500 - n) None (Complete onComplete)]) /\
  (forall n, (n < 3500)%nat -> completions (elapse n w0) = []) /\
  (forall n, (3500 <= n)%nat ->
     completions (elapse n w0) = [onComplete] /\
     timers (elapse n w0) = [] /\
     percentage (elapse n w0) = None /\
     results (elapse n w0) = Some (generateFakeData t s)).
Proof.
  intros Ht Hs onComplete w0.
  unfold w0. rewrite (accepted t s a Ht Hs).
  set (d := {| topic := t; skillLevel := s; aiEnhanced := a |}).
  assert (Full : forall n, (3000 <= n < 3500)%nat ->
                 elapse n (loading d 0 30) = full d (3500 - n))
    by (intros; now apply full_at).
  split; [reflexivity|].
  split.
  { intros n Hn. destruct (Nat.eq_dec n 3000) as [->|Hne].
    - rewrite Full by lia. reflexivity.
    - rewrite loading_at by lia. reflexivity. }
  split.
  { intros n Hn. rewrite loading_at by lia. reflexivity. }
  split.
  { intros n Hn. rewrite Full by lia. split; reflexivity. }
  split.
  { intros n Hn. destruct (Nat.lt_ge_cases n 3000).
    - rewrite loading_at by lia. reflexivity.
    - rewrite Full by lia. reflexivity. }
  intros n Hn. rewrite ready_at by lia. repeat split.
Qed.

Lemma progress_completes_once_witness :
  let w0 := react Index_mount (Generate (js "Web Development") (js "beginner") false) in
  falsy (js "Web Development") = false /\ falsy (js "beginner") = false /\
  percentage (elapse 3499 w0) = Some 100%Z /\
  completions (elapse 3499 w0) = [] /\
  List.length (completions (elapse 3500 w0)) = 1%nat /\
  List.length (completions (elapse 4000 w0)) = 1%nat.
Proof.
  cbv zeta.
  destruct (progress_completes_once (js "Web Development") (js "beginner") false
              eq_refl eq_refl) as (_ & _ & _ & Hfull & Hnone & Hdone).
  split; [reflexivity|]. split; [reflexivity|].
  split; [apply (Hfull 3499%nat); lia|].
  split; [apply (Hnone 3499%nat); lia|].
  split.
  - destruct (Hdone 3500%nat) as [-> _]; [lia | reflexivity].
  - destruct (Hdone 4000%nat) as [-> _]; [lia | reflexivity].
Defined.

(** ** ProgressBar: leaving the stage during the grace delay *)

Section ResetInGrace.

Variable d : FormData.

Lemma reset_when_full (r : nat) :
  startNewSearch (full d r) = reset_in_grace d r 0 30.
Proof. reflexivity. Qed.

Lemma reset_in_grace_tick (r q : nat) (p : Z) :
  (p + increment < 100)%Z ->
  tick (reset_in_grace d (S (S r)) p (S q))
    = match q with
      | O => reset_in_grace d (S r) (p + increment) 30
      | S _ => reset_in_grace d (S r) p q
      end.
Proof.
  intros Hp. destruct q as [|q]; [|reflexivity].
  change increment with 1%Z in *.
  unfold tick, fire; cbn. unfold ProgressBar_tick; cbn.
  destruct (Z.geb_spec (p + 1) 100) as [H|_]; [lia|].
  reflexivity.
Qed.

(** The stale timeout fires whatever the new interval is doing. *)
Lemma reset_in_grace_fires (q : nat) (p : Z) :
  tick (reset_in_grace d 1 p (S q)) = result_after_reset d.
Proof. destruct q as [|[|q]]; reflexivity. Qed.

Lemma reset_in_grace_ends (r : nat) :
  forall (q : nat) (p : Z),
    (0 <= p)%Z -> (q <= 29)%nat ->
    (30 * p + Z.of_nat r < 2900 + Z.of_nat q)%Z ->
    elapse (S r) (reset_in_grace d (S r) p (S q)) = result_after_reset d.
Proof.
  induction r as [|r IH]; intros q p Hp0 Hq Hp.
  - cbn [elapse]. apply reset_in_grace_fires.
  - change (elapse (S (S r)) ?w) with (elapse (S r) (tick w)).
    destruct increment_exact as (_ & _ & _ & Hinc).
    rewrite reset_in_grace_tick by lia.
    destruct q as [|q]; apply IH; lia.
Qed.

End ResetInGrace.

(** C3, at a reset during the grace delay: the form is accepted, the bar
    fills (3000 units), and "Start a new search" is clicked [n - 3000]
    units later, before the 500 units of grace are over.  The click
    empties the form data and runs the cleanup, which clears the
    interval only; the timeout keeps the [onComplete] of the earlier
    render, and at 3500 it is called and puts the result of the abandoned
    request on the page. *)
Theorem completion_fires_after_reset (t s : jsstring) (a : bool) (n : nat) :
  falsy t = false -> falsy s = false ->
  (3000 <= n < 3500)%nat ->
  let d := {| topic := t; skillLevel := s; aiEnhanced := a |} in
  let w := play [Generate t s a; Elapse n; StartNewSearch] Index_mount in
  let w' := react w (Elapse (3500 - n)) in
  (formData w = None /\ results w = None /\ completions w = [] /\ phase w = Idle) /\
  (completions w' = [ {| born := 2; seen_formData := Some d |} ] /\
   results w' = Some (generateFakeData t s) /\
   formData w' = None /\
   phase w' = Ready).
Proof.
  intros Ht Hs Hn d w w'.
  assert (Hw : w = reset_in_grace d (3500 - n) 0 30).
  { unfold w, play. cbn [fold_left].
    rewrite (accepted t s a Ht Hs). cbn [react].
    fold d. rewrite full_at by lia.
    cbn [truthy formData full orb]. apply reset_when_full. }
  assert (Hw' : w' = result_after_reset d).
  { unfold w'. rewrite Hw. cbn [react].
    replace (3500 - n)%nat with (S (3499 - n)) by lia.
    apply reset_in_grace_ends; lia. }
  rewrite Hw', Hw. repeat split.
Qed.

Lemma completion_fires_after_reset_witness :
  let d := {| topic := js "Web Development"; skillLevel := js "beginner";
              aiEnhanced := false |} in
  let w := play [Generate (js "Web Development") (js "beginner") false;
                 Elapse 3100; StartNewSearch] Index_mount in
  let w' := react w (Elapse (3500 - 3100)) in
  (formData w = None /\ results w = None /\ completions w = [] /\ phase w = Idle) /\
  (completions w' = [ {| born := 2; seen_formData := Some d |} ] /\
   results w' = Some (generateFakeData (js "Web Development") (js "beginner")) /\
   formData w' = None /\
   phase w' = Ready).
Proof.
  apply (completion_fires_after_reset (js "Web Development") (js "beginner") false 3100);
    [reflexivity | reflexivity | lia].
Defined.

(** A reset before the bar is full does not end the stage either: the
    click leaves [isLoading] set, the effect runs again from 0, and 3500
    units later the [onComplete] of the new render is called; it sees no
    form data and changes nothing, so the bar stays on the page at 100. *)
Example reset_while_loading :
  let w := play [Generate (js "Web Development") (js "beginner") false;
                 Elapse 1000; StartNewSearch; Elapse 3500] Index_mount in
  completions w = [ {| born := 3; seen_formData := None |} ] /\
  results w = None /\ isLoading w = true /\
  percentage w = Some 100%Z /\ timers w = [].
Proof. vm_compute. repeat split. Qed.

(** ** ResultsCard: export *)

Lemma underscore_not_whitespace : is_whitespace UNDERSCORE = false.
Proof. reflexivity. Qed.

(** After a run has been replaced, what follows a non-whitespace start is
    handled as at the beginning. *)
Lemma replace_ws_after_run (s : jsstring) :
  match s with [] => True | c :: _ => is_whitespace c = false end ->
  replace_ws true s = replace_ws false s.
Proof.
  destruct s as [|c s]; [reflexivity|].
  intros H. cbn [replace_ws]. now rewrite H.
Qed.

Lemma replace_ws_skips (gap s : jsstring) :
  forallb is_whitespace gap = true ->
  replace_ws true (gap ++ s) = replace_ws true s.
Proof.
  induction gap as [|c gap IH]; intros H; [reflexivity|].
  cbn [forallb] in H. apply andb_true_iff in H as [Hc Hg].
  cbn [app replace_ws]. rewrite Hc. now apply IH.
Qed.

Lemma replace_ws_collapsed (s : jsstring) :
  collapsed s (replace_ws false s) /\
  forall c, is_whitespace c = true ->
            collapsed (c :: s) (UNDERSCORE :: replace_ws true s).
Proof.
  induction s as [|x s [IH1 IH2]].
  - split; [constructor|].
    intros c Hc. apply (collapsed_run c [] [] []); auto. constructor.
  - destruct (is_whitespace x) eqn:Hx.
    + cbn [replace_ws]. rewrite Hx. split; [now apply IH2|].
      intros c Hc. specialize (IH2 x Hx).
      inversion IH2 as [ | ? ? ? Hk _ | ? gap s' r' _ Hgap Hs' Hr' Es ]; subst.
      * rewrite underscore_not_whitespace in Hx. discriminate.
      * apply (collapsed_run c (x :: gap) s'); auto.
        cbn [forallb]. now rewrite Hx, Hgap.
    + cbn [replace_ws]. rewrite Hx. split.
      * now constructor.
      * intros c Hc. apply (collapsed_run c [] (x :: s)); auto.
        now constructor.
Qed.

(** [collapsed] determines its result, which is the one computed. *)
Lemma collapsed_replace (s r : jsstring) :
  collapsed s r -> r = replace_whitespace_runs s.
Proof.
  unfold replace_whitespace_runs.
  induction 1 as [ | c s r Hc _ IH | c gap s r Hc Hgap Hs _ IH ].
  - reflexivity.
  - cbn [replace_ws]. now rewrite Hc, IH.
  - cbn [replace_ws]. rewrite Hc, replace_ws_skips by assumption.
    now rewrite replace_ws_after_run, IH.
Qed.

Lemma single_spaced_replace (s : jsstring) :
  single_spaced s = true ->
  replace_whitespace_runs s = spaces_to_underscores s.
Proof.
  unfold replace_whitespace_runs.
  induction s as [|c s IH]; [reflexivity|].
  cbn [single_spaced replace_ws spaces_to_underscores map].
  intros H. apply andb_true_iff in H as [Hc Hs].
  destruct (is_whitespace c) eqn:Hw.
  - apply andb_true_iff in Hc as [Hsp Hnext].
    rewrite Hsp. f_equal.
    rewrite replace_ws_after_run.
    + now apply IH.
    + destruct s as [|x s]; [exact I|].
      now apply negb_true_iff in Hnext.
  - assert (N.eqb c SPACE = false) as ->.
    { destruct (N.eqb_spec c SPACE) as [->|]; [discriminate Hw | reflexivity]. }
    f_equal. now apply IH.
Qed.

(** Every topic on offer has single spaces only, so its file name is the
    topic with the spaces replaced one for one. *)
Lemma offered_topics_single_spaced :
  forallb single_spaced topics = true.
Proof. reflexivity. Qed.

(** C9 as stated fails for a topic with two spaces in a row: both are
    replaced by one underscore, so the file is not named after the topic
    with its spaces replaced one for one. *)
Lemma export_name_collapses_spaces :
  let w := play [Generate (js "Machine  Learning") (js "beginner") false;
                 Elapse 3500; ExportYes; Elapse 1000] Index_mount in
  map download (downloads w) = [js "Machine_Learning_roadmap.pdf"] /\
  map download (downloads w)
    <> [spaces_to_underscores (js "Machine  Learning") ++ js "_roadmap.pdf"].
Proof.
  vm_compute. split; [reflexivity | discriminate].
Qed.

(** C9, amended: on a page with nothing else pending, the export handler
    leaves the downloads untouched for 1000 time units and then clicks
    one anchor, once; its [data:] URL carries nothing and its file name is
    the topic with every maximal run of whitespace replaced by one
    underscore, followed by "_roadmap.pdf".  For a topic whose only
    whitespace is single spaces that is the topic with its spaces
    replaced by underscores. *)
Theorem export_download_after_delay (w : World) (c : ResultsCard) :
  resultsCard w = Some c -> timers w = [] ->
  exists stem,
    collapsed (r_topic (data c)) stem /\
    (single_spaced (r_topic (data c)) = true ->
       stem = spaces_to_underscores (r_topic (data c))) /\
    data_url_payload (js "data:text/plain;charset=utf-8,") = [] /\
    (forall n, (n < 1000)%nat ->
       downloads (elapse n (handleExportPDF w)) = downloads w) /\
    (forall n, (1000 <= n)%nat ->
       downloads (elapse n (handleExportPDF w))
         = downloads w ++
           [ {| href := js "data:text/plain;charset=utf-8,";
                download := stem ++ js "_roadmap.pdf" |} ]).
Proof.
  intros Hc Ht.
  exists (replace_whitespace_runs (r_topic (data c))).
  split; [apply replace_ws_collapsed|].
  split; [apply single_spaced_replace|].
  split; [reflexivity|].
  set (W := with_next_timer (S (next_timer w))
              (with_resultsCard (Some (setExportConfirmed true c)) w)).
  assert (E : handleExportPDF w
              = with_timers [pending (next_timer w) 1000 None (ExportDownload (data c))] W).
  { unfold handleExportPDF. rewrite Hc. unfold setTimeout.
    cbn [timers with_resultsCard next_timer]. rewrite Ht. reflexivity. }
  rewrite E. split.
  - intros n Hn.
    replace 1000%nat with (n + S (999 - n))%nat by lia.
    rewrite elapse_wait. reflexivity.
  - intros n Hn.
    replace n with (999 + (1 + (n - 1000)))%nat by lia.
    rewrite elapse_add. change 1000%nat with (999 + 1)%nat.
    rewrite elapse_wait, elapse_add. cbn [elapse].
    rewrite tick_timeout, elapse_quiet by reflexivity.
    reflexivity.
Qed.

Lemma export_download_after_delay_witness :
  let w := ready {| topic := js "Web Development"; skillLevel := js "beginner";
                    aiEnhanced := false |} in
  exists stem,
    collapsed (js "Web Development") stem /\
    (single_spaced (js "Web Development") = true ->
       stem = spaces_to_underscores (js "Web Development")) /\
    data_url_payload (js "data:text/plain;charset=utf-8,") = [] /\
    (forall n, (n < 1000)%nat ->
       downloads (elapse n (handleExportPDF w)) = []) /\
    (forall n, (1000 <= n)%nat ->
       downloads (elapse n (handleExportPDF w))
         = [ {| href := js "data:text/plain;charset=utf-8,";
                download := stem ++ js "_roadmap.pdf" |} ]).
Proof.
  exact (export_download_after_delay
           (ready {| topic := js "Web Development"; skillLevel := js "beginner";
                     aiEnhanced := false |})
           (ResultsCard_mount (generateFakeData (js "Web Development") (js "beginner")))
           eq_refl eq_refl).
Defined.

(** The file name for the first topic the form offers. *)
Example export_name_web_development :
  let w := play [Generate (js "Web Development") (js "beginner") false;
                 Elapse 3500; ExportYes; Elapse 1000] Index_mount in
  map download (downloads w) = [js "Web_Development_roadmap.pdf"].
Proof. vm_compute. reflexivity. Qed.

(** ** The aiEnhanced flag is never consulted

    Forgetting the flag commutes with every handler and with the passing
    of time, so a run and the same run with other flags differ in the
    stored form data only. *)

Lemma filter_forget (i : nat) (l : list timer) :
  filter (fun x => negb (Nat.eqb (timer_id x) i)) (map forget_timer l)
    = map forget_timer (filter (fun x => negb (Nat.eqb (timer_id x) i)) l).
Proof.
  induction l as [|t l IH]; [reflexivity|].
  cbn [map filter timer_id forget_timer].
  destruct (negb (Nat.eqb (timer_id t) i)); cbn [map]; now rewrite IH.
Qed.

Lemma forget_clearInterval (t : option nat) (w : World) :
  forget (clearInterval t w) = clearInterval t (forget w).
Proof.
  destruct t as [i|]; [|reflexivity].
  unfold clearInterval, forget; cbn. now rewrite filter_forget.
Qed.

Lemma forget_setTimeout (f : callback) (ms : nat) (w : World) :
  forget (setTimeout f ms w) = setTimeout (forget_callback f) ms (forget w).
Proof.
  unfold setTimeout, forget; cbn. now rewrite map_app.
Qed.

Lemma forget_setInterval (f : nat -> callback) (ms : nat) (w : World) :
  forget (snd (setInterval f ms w))
    = snd (setInterval (fun t => forget_callback (f t)) ms (forget w)) /\
  fst (setInterval f ms w)
    = fst (setInterval (fun t => forget_callback (f t)) ms (forget w)).
Proof.
  unfold setInterval, forget; cbn. now rewrite map_app.
Qed.

Lemma forget_record_completion (c : closure) (w : World) :
  forget (record_completion c w) = record_completion (forget_closure c) (forget w).
Proof.
  unfold record_completion, forget; cbn. now rewrite map_app.
Qed.

Lemma forget_ProgressBar_tick (t : nat) (c : closure) (w : World) :
  forget (ProgressBar_tick t c w) = ProgressBar_tick t (forget_closure c) (forget w).
Proof.
  unfold ProgressBar_tick.
  cbn [progressBar forget].
  destruct (progressBar w) as [b|]; [|reflexivity].
  cbn [option_map progress forget_ProgressBar].
  destruct (progress b + increment >=? 100)%Z; [|reflexivity].
  rewrite <- forget_clearInterval.
  change (Complete (forget_closure c)) with (forget_callback (Complete c)).
  rewrite <- forget_setTimeout. reflexivity.
Qed.

Lemma forget_ProgressBar_effect (l : bool) (c : closure) (w : World) :
  forget (ProgressBar_effect l c w) = ProgressBar_effect l (forget_closure c) (forget w).
Proof.
  destruct l; [|reflexivity].
  unfold ProgressBar_effect, setInterval, forget; cbn. now rewrite map_app.
Qed.

Lemma forget_render_ProgressBar (c : closure) (w : World) :
  forget (render_ProgressBar c w) = render_ProgressBar (forget_closure c) (forget w).
Proof.
  unfold render_ProgressBar. cbn [isLoading progressBar forget].
  destruct (isLoading w), (progressBar w) as [b|]; cbn [option_map].
  - cbn [dep_isLoading dep_onComplete forget_ProgressBar].
    change (same_closure (forget_closure (dep_onComplete b)) (forget_closure c))
      with (same_closure (dep_onComplete b) c).
    destruct (Bool.eqb (dep_isLoading b) true && same_closure (dep_onComplete b) c);
      [reflexivity|].
    rewrite forget_ProgressBar_effect. unfold ProgressBar_cleanup.
    now rewrite forget_clearInterval.
  - apply forget_ProgressBar_effect.
  - unfold ProgressBar_cleanup. cbn [effect_timer forget_ProgressBar].
    rewrite <- forget_clearInterval. reflexivity.
  - reflexivity.
Qed.

Lemma forget_render_ResultsCard (w : World) :
  forget (render_ResultsCard w) = render_ResultsCard (forget w).
Proof.
  unfold render_ResultsCard. cbn [results resultsCard forget].
  destruct (results w); [destruct (resultsCard w)|]; reflexivity.
Qed.

Lemma forget_render (w : World) : forget (render w) = render (forget w).
Proof.
  unfold render. now rewrite forget_render_ResultsCard, forget_render_ProgressBar.
Qed.

Lemma forget_handleFormSubmit (d : FormData) (w : World) :
  forget (handleFormSubmit d w) = handleFormSubmit (forget_FormData d) (forget w).
Proof.
  unfold handleFormSubmit. now rewrite forget_render.
Qed.

Lemma forget_handleLoadingComplete (c : closure) (w : World) :
  forget (handleLoadingComplete c w)
    = handleLoadingComplete (forget_closure c) (forget w).
Proof.
  unfold handleLoadingComplete. cbn [seen_formData forget_closure].
  destruct (seen_formData c) as [fd|]; cbn [option_map].
  - rewrite forget_render, <- forget_record_completion. reflexivity.
  - apply forget_record_completion.
Qed.

Lemma forget_run (f : callback) (w : World) :
  forget (run f w) = run (forget_callback f) (forget w).
Proof.
  destruct f as [t c | c | r]; cbn [run forget_callback].
  - apply forget_ProgressBar_tick.
  - apply forget_handleLoadingComplete.
  - reflexivity.
Qed.

Lemma find_forget (i : nat) (l : list timer) :
  find (fun t => Nat.eqb (timer_id t) i) (map forget_timer l)
    = option_map forget_timer (find (fun t => Nat.eqb (timer_id t) i) l).
Proof.
  induction l as [|t l IH]; [reflexivity|].
  cbn [map find timer_id forget_timer].
  destruct (Nat.eqb (timer_id t) i); [reflexivity | exact IH].
Qed.

Lemma forget_fire (w : World) (i : nat) :
  forget (fire w i) = fire (forget w) i.
Proof.
  unfold fire. cbn [timers forget]. rewrite find_forget.
  destruct (find (fun t => Nat.eqb (timer_id t) i) (timers w)) as [t|];
    [|reflexivity].
  cbn [option_map period action forget_timer]. rewrite forget_run. f_equal.
  destruct (period t) as [p|].
  - unfold forget, with_timers; cbn. f_equal.
    rewrite !map_map. apply map_ext. intros x.
    cbn [timer_id forget_timer]. now destruct (Nat.eqb (timer_id x) i).
  - apply forget_clearInterval.
Qed.

Lemma forget_fires (ids : list nat) (w : World) :
  forget (fold_left fire ids w) = fold_left fire ids (forget w).
Proof.
  revert w; induction ids as [|i ids IH]; intros w; [reflexivity|].
  cbn [fold_left]. now rewrite IH, forget_fire.
Qed.

Lemma due_ids_forget (l : list timer) :
  map timer_id (filter due (map age (map forget_timer l)))
    = map timer_id (filter due (map age l)).
Proof.
  induction l as [|t l IH]; [reflexivity|].
  cbn [map filter].
  change (due (age (forget_timer t))) with (due (age t)).
  destruct (due (age t)); cbn [map timer_id age forget_timer]; now rewrite IH.
Qed.

Lemma forget_tick (w : World) : forget (tick w) = tick (forget w).
Proof.
  unfold tick. rewrite forget_fires. cbn [timers forget].
  rewrite due_ids_forget. f_equal.
  unfold forget, with_timers; cbn. f_equal.
  rewrite !map_map. now apply map_ext.
Qed.

Lemma forget_elapse (n : nat) (w : World) :
  forget (elapse n w) = elapse n (forget w).
Proof.
  revert w; induction n as [|n IH]; intros w; [reflexivity|].
  cbn [elapse]. now rewrite IH, forget_tick.
Qed.

Lemma forget_on_card (f : ResultsCard -> ResultsCard) (w : World) :
  forget (on_card f w) = on_card f (forget w).
Proof.
  unfold on_card. cbn [resultsCard forget].
  destruct (resultsCard w); reflexivity.
Qed.

Lemma forget_handleExportPDF (w : World) :
  forget (handleExportPDF w) = handleExportPDF (forget w).
Proof.
  unfold handleExportPDF. cbn [resultsCard forget].
  destruct (resultsCard w); [|reflexivity].
  now rewrite forget_setTimeout.
Qed.

Lemma forget_react (w : World) (e : event) :
  forget (react w e) = react (forget w) (forget_event e).
Proof.
  destruct e; cbn [react forget_event]; unfold card_shows;
    cbn [formData results resultsCard forget].
  - destruct (formData w); cbn [option_map truthy]; [reflexivity|].
    unfold CourseForm_handleSubmit.
    destruct (falsy topic0 || falsy skillLevel0); [reflexivity|].
    apply forget_handleFormSubmit.
  - destruct (formData w), (results w); cbn [option_map truthy orb];
      try reflexivity; unfold startNewSearch; now rewrite forget_render.
  - destruct (resultsCard w) as [c|]; [|reflexivity].
    destruct (negb (exportConfirmed c)); [apply forget_handleExportPDF | reflexivity].
  - destruct (resultsCard w) as [c|]; [|reflexivity].
    destruct (negb (exportConfirmed c)); [apply forget_on_card | reflexivity].
  - destruct (resultsCard w) as [c|]; [|reflexivity].
    destruct (exportConfirmed c && negb (showCoursesDialog c));
      [apply forget_on_card | reflexivity].
  - destruct (resultsCard w) as [c|]; [|reflexivity].
    destruct (exportConfirmed c && showCoursesDialog c);
      [apply forget_on_card | reflexivity].
  - destruct (resultsCard w) as [c|]; [|reflexivity].
    destruct (exportConfirmed c && showCoursesDialog c);
      [apply forget_on_card | reflexivity].
  - destruct (resultsCard w); reflexivity.
  - apply forget_elapse.
Qed.

Lemma forget_play (es : list event) (w : World) :
  forget (play es w) = play (map forget_event es) (forget w).
Proof.
  unfold play. revert w; induction es as [|e es IH]; intros w; [reflexivity|].
  cbn [map fold_left]. now rewrite IH, forget_react.
Qed.

Lemma results_clearInterval (t : option nat) (w : World) :
  results (clearInterval t w) = results w.
Proof. destruct t; reflexivity. Qed.

Lemma results_ProgressBar_effect (l : bool) (c : closure) (w : World) :
  results (ProgressBar_effect l c w) = results w.
Proof. destruct l; reflexivity. Qed.

(** Rendering shows the results, it does not change them. *)
Lemma results_render (w : World) : results (render w) = results w.
Proof.
  unfold render, render_ResultsCard.
  set (w1 := render_ProgressBar _ _).
  assert (H : results w1 = results w).
  { unfold w1, render_ProgressBar, ProgressBar_cleanup.
    cbn [isLoading progressBar with_renders].
    destruct (isLoading w), (progressBar w) as [b|]; try reflexivity.
    - destruct (Bool.eqb (dep_isLoading b) true && same_closure (dep_onComplete b) _);
        [reflexivity|].
      now rewrite results_ProgressBar_effect, results_clearInterval.
    - change (results (clearInterval (effect_timer b) (with_renders (S (renders w)) w))
              = results w).
      now rewrite results_clearInterval. }
  destruct (results w1) eqn:E; [destruct (resultsCard w1)|]; cbn [results with_resultsCard];
    congruence.
Qed.

(** C1: the derived result is a function of the topic and the skill level
    alone.  Whenever a completion callback stores a result, in whatever
    state of the page, it is [generateFakeData] of the topic and skill
    level it captured; and two sessions whose events differ only in the
    aiEnhanced flags of the submissions show the same result, the same
    card, the same notifications and downloads and the same percentage. *)
Theorem result_ignores_aiEnhanced (es es' : list event) :
  map forget_event es = map forget_event es' ->
  (forall (n : nat) (t s : jsstring) (a a' : bool) (w : World),
     results (handleLoadingComplete
                {| born := n;
                   seen_formData :=
                     Some {| topic := t; skillLevel := s; aiEnhanced := a |} |} w)
       = Some (generateFakeData t s) /\
     generateFakeData (topic {| topic := t; skillLevel := s; aiEnhanced := a |})
                      (skillLevel {| topic := t; skillLevel := s; aiEnhanced := a |})
       = generateFakeData (topic {| topic := t; skillLevel := s; aiEnhanced := a' |})
                          (skillLevel {| topic := t; skillLevel := s; aiEnhanced := a' |})) /\
  results (play es Index_mount) = results (play es' Index_mount) /\
  resultsCard (play es Index_mount) = resultsCard (play es' Index_mount) /\
  toasts (play es Index_mount) = toasts (play es' Index_mount) /\
  downloads (play es Index_mount) = downloads (play es' Index_mount) /\
  percentage (play es Index_mount) = percentage (play es' Index_mount).
Proof.
  intros H.
  assert (E : forget (play es Index_mount) = forget (play es' Index_mount)).
  { rewrite !forget_play. now rewrite H. }
  split.
  { intros n t s a a' w. split; [|reflexivity].
    unfold handleLoadingComplete. cbn [seen_formData].
    now rewrite results_render. }
  repeat split.
  - exact (f_equal results E).
  - exact (f_equal resultsCard E).
  - exact (f_equal toasts E).
  - exact (f_equal downloads E).
  - apply (f_equal percentage) in E. unfold percentage in *.
    cbn [progressBar forget] in E.
    destruct (progressBar (play es Index_mount)),
             (progressBar (play es' Index_mount)); cbn in *; congruence.
Qed.

Lemma result_ignores_aiEnhanced_witness :
  let es := [Generate (js "Web Development") (js "beginner") true; Elapse 3500] in
  let es' := [Generate (js "Web Development") (js "beginner") false; Elapse 3500] in
  results (play es Index_mount) = results (play es' Index_mount) /\
  results (play es Index_mount)
    = Some (generateFakeData (js "Web Development") (js "beginner")).
Proof.
  cbv zeta. split.
  - apply (result_ignores_aiEnhanced
             [Generate (js "Web Development") (js "beginner") true; Elapse 3500]
             [Generate (js "Web Development") (js "beginner") false; Elapse 3500]).
    reflexivity.
  - vm_compute. reflexivity.
Defined.

(** * Further properties of the code *)

(** ** generateFakeData: the first word of any topic *)

Lemma split_from_cons (s acc : jsstring) :
  exists x l, split_from acc s = x :: l.
Proof.
  revert acc; induction s as [|c s IH]; intros acc; cbn [split_from].
  - now exists (rev acc), [].
  - destruct (N.eqb c SPACE); [now exists (rev acc), (split_from [] s) | apply IH].
Qed.

Lemma join_split_from (s acc : jsstring) :
  join_space (split_from acc s) = rev acc ++ s.
Proof.
  revert acc; induction s as [|c s IH]; intros acc; cbn [split_from].
  - cbn [join_space]. now rewrite app_nil_r.
  - destruct (N.eqb_spec c SPACE) as [->|Hc].
    + specialize (IH []). destruct (split_from_cons s []) as (x & l & E).
      rewrite E in *. cbn [join_space] in *. now rewrite IH.
    + rewrite IH. cbn [rev]. now rewrite <- app_assoc.
Qed.

Lemma existsb_rev_space (l : jsstring) :
  existsb (N.eqb SPACE) (rev l) = existsb (N.eqb SPACE) l.
Proof.
  induction l as [|c l IH]; [reflexivity|].
  cbn [rev]. rewrite existsb_app. cbn [existsb].
  rewrite orb_false_r, orb_comm. f_equal. exact IH.
Qed.

Lemma split_from_space_free (s acc : jsstring) :
  existsb (N.eqb SPACE) acc = false ->
  Forall (fun p => existsb (N.eqb SPACE) p = false) (split_from acc s).
Proof.
  revert acc; induction s as [|c s IH]; intros acc Hacc; cbn [split_from].
  - constructor; [|constructor].
    cbv beta. rewrite existsb_rev_space. exact Hacc.
  - destruct (N.eqb c SPACE) eqn:Hc.
    + constructor; [cbv beta; now rewrite existsb_rev_space | now apply IH].
    + apply IH. cbn [existsb]. now rewrite N.eqb_sym, Hc.
Qed.

Lemma split_from_no_space (s acc : jsstring) :
  existsb (N.eqb SPACE) s = false ->
  split_from acc s = [rev acc ++ s].
Proof.
  revert acc; induction s as [|c s IH]; intros acc H; cbn [split_from existsb] in *.
  - now rewrite app_nil_r.
  - apply orb_false_iff in H as [Hc Hs].
    rewrite N.eqb_sym in Hc. rewrite Hc, (IH _ Hs). cbn [rev].
    now rewrite <- app_assoc.
Qed.

(** X1: whatever the topic, with or without spaces, empty or not, the
    first career entry is the part of the topic before its first space
    (the whole topic when it has none) followed by
    " Developer at tech companies"; the pieces [split] cuts have no space
    in them and, joined by spaces, give the topic back. *)
Theorem career_first_piece (topic skillLevel : jsstring) :
  exists first,
    hd_error (split_space topic) = Some first /\
    existsb (N.eqb SPACE) first = false /\
    (topic = first \/ exists rest, topic = first ++ SPACE :: rest) /\
    hd_error (careerOpportunities (generateFakeData topic skillLevel))
      = Some (first ++ js " Developer at tech companies") /\
    join_space (split_space topic) = topic /\
    Forall (fun p => existsb (N.eqb SPACE) p = false) (split_space topic).
Proof.
  assert (J : join_space (split_space topic) = topic)
    by (unfold split_space; now rewrite join_split_from).
  assert (F : Forall (fun p => existsb (N.eqb SPACE) p = false) (split_space topic))
    by (now apply split_from_space_free).
  destruct (existsb (N.eqb SPACE) topic) eqn:Hsp.
  - destruct (first_space topic Hsp) as (first & rest & E & Hf).
    assert (S : split_space topic = first :: split_from [] rest).
    { unfold split_space. rewrite E. apply (split_from_first first rest [] Hf). }
    exists first. repeat split; try assumption.
    + now rewrite S.
    + right. now exists rest.
    + unfold generateFakeData; cbn [careerOpportunities]. now rewrite S.
  - assert (S : split_space topic = [topic])
      by (unfold split_space; now rewrite split_from_no_space).
    exists topic. repeat split; try assumption.
    + now rewrite S.
    + now left.
    + unfold generateFakeData; cbn [careerOpportunities]. now rewrite S.
Qed.

(** ** generateFakeData: the shape of the looked-up lists *)

Lemma own_property_in {A} (obj : list (jsstring * A)) (key : jsstring) (a : A) :
  own_property obj key = Some a -> In a (map snd obj).
Proof.
  induction obj as [|[k v] obj IH]; cbn [own_property map snd]; [discriminate|].
  destruct (streq k key).
  - intros [= ->]. now left.
  - intros H. right. now apply IH.
Qed.

(** X2: for every topic and skill level that is no member name of
    [Object.prototype], the learning path is a list of exactly seven
    phases numbered "1. " to "7. " in order, and the projects are a list
    of exactly four non-empty names; the learning path does not depend on
    the skill level nor the projects on the topic. *)
Theorem lists_have_fixed_shape (topic skillLevel : jsstring) :
  existsb (streq topic) Object_prototype_members = false ->
  existsb (streq skillLevel) Object_prototype_members = false ->
  exists path ps,
    learningPath (generateFakeData topic skillLevel) = Own path /\
    numbered_phases path = true /\
    projects (generateFakeData topic skillLevel) = Own ps /\
    four_projects ps = true /\
    (forall s', learningPath (generateFakeData topic s') = Own path) /\
    (forall t', projects (generateFakeData t' skillLevel) = Own ps).
Proof.
  intros Ht Hs.
  assert (Tp : forall l, In l (map snd learningPathMap) -> numbered_phases l = true).
  { apply Forall_forall. repeat constructor. }
  assert (Tq : forall l, In l (map snd projectsByLevel) -> four_projects l = true).
  { apply Forall_forall. repeat constructor. }
  destruct (own_property learningPathMap topic) as [path|] eqn:Ep;
    destruct (own_property projectsByLevel skillLevel) as [ps|] eqn:Eq.
  all: eexists; eexists.
  all: split; [rewrite learningPath_lookup, Ep by assumption; reflexivity|].
  all: split; [try (apply Tp; eapply own_property_in; eassumption); try reflexivity|].
  all: split; [rewrite projects_lookup, Eq by assumption; reflexivity|].
  all: split; [try (apply Tq; eapply own_property_in; eassumption); try reflexivity|].
  all: split; intros x.
  all: try (rewrite learningPath_lookup, Ep by assumption; reflexivity).
  all: try (rewrite projects_lookup, Eq by assumption; reflexivity).
Qed.

Lemma lists_have_fixed_shape_witness :
  exists path ps,
    learningPath (generateFakeData (js "Quantum Computing") (js "expert")) = Own path /\
    numbered_phases path = true /\
    projects (generateFakeData (js "Quantum Computing") (js "expert")) = Own ps /\
    four_projects ps = true /\
    (forall s', learningPath (generateFakeData (js "Quantum Computing") s') = Own path) /\
    (forall t', projects (generateFakeData t' (js "expert")) = Own ps).
Proof.
  apply (lists_have_fixed_shape (js "Quantum Computing") (js "expert"));
    reflexivity.
Defined.

(** ** handleExportPDF: the file name *)

Lemma replace_ws_no_whitespace (b : bool) (s : jsstring) :
  forallb (fun c => negb (is_whitespace c)) (replace_ws b s) = true.
Proof.
  revert b; induction s as [|c s IH]; intros b; [reflexivity|].
  cbn [replace_ws]. destruct (is_whitespace c) eqn:Hc.
  - destruct b; [apply IH|].
    cbn [forallb]. now rewrite underscore_not_whitespace, IH.
  - cbn [forallb]. now rewrite Hc, IH.
Qed.

Lemma replace_ws_fixed (b : bool) (s : jsstring) :
  forallb (fun c => negb (is_whitespace c)) s = true -> replace_ws b s = s.
Proof.
  revert b; induction s as [|c s IH]; intros b H; [reflexivity|].
  cbn [forallb] in H. apply andb_true_iff in H as [Hc Hs].
  apply negb_true_iff in Hc. cbn [replace_ws]. rewrite Hc.
  now rewrite IH.
Qed.

Lemma replace_ws_length (b : bool) (s : jsstring) :
  (List.length (replace_ws b s) <= List.length s)%nat.
Proof.
  revert b; induction s as [|c s IH]; intros b; [apply le_n|].
  cbn [replace_ws]. destruct (is_whitespace c); [destruct b|]; cbn [List.length].
  - specialize (IH true). lia.
  - specialize (IH true). lia.
  - specialize (IH false). lia.
Qed.

(** X3: the export callback adds exactly one download, whose file name
    never contains a whitespace character, whatever the topic holds
    (tabs, line breaks, leading or trailing blanks), is the replaced
    topic, no longer than the topic, followed by "_roadmap.pdf"; and
    replacing once more would change nothing. *)
Theorem export_name_without_whitespace (d : Result) (w : World) :
  exists stem,
    downloads (export_download d w)
      = downloads w ++
        [ {| href := js "data:text/plain;charset=utf-8,";
             download := stem ++ js "_roadmap.pdf" |} ] /\
    forallb (fun c => negb (is_whitespace c)) (stem ++ js "_roadmap.pdf") = true /\
    (List.length stem <= List.length (r_topic d))%nat /\
    replace_whitespace_runs stem = stem /\
    timers (export_download d w) = timers w /\
    results (export_download d w) = results w.
Proof.
  exists (replace_whitespace_runs (r_topic d)). unfold replace_whitespace_runs.
  split; [reflexivity|].
  split; [rewrite forallb_app, replace_ws_no_whitespace; reflexivity|].
  split; [apply replace_ws_length|].
  split; [apply replace_ws_fixed, replace_ws_no_whitespace|].
  split; reflexivity.
Qed.

(** ** handleCourseIdSubmit: the catalogue *)

(** X4: every course of the catalogue is found under its own id: the
    panel then carries that course's id, title, rating and difficulty,
    whatever the card showed before; the ids of the catalogue are pairwise
    different, so no entry hides another. *)
Theorem catalogue_entries_are_found (course : Course) (c : ResultsCard) :
  In course mockCourses ->
  NoDup (map c_id mockCourses) /\
  exists d,
    lookup (c_id course) c = Some d /\
    id d = c_id course /\ title d = c_title course /\
    rating d = c_rating course /\ difficulty d = c_difficulty course.
Proof.
  intros H. split.
  - repeat constructor; cbn; intuition discriminate.
  - cbn in H. destruct H as [<-|[<-|[<-|[<-|[<-|[]]]]]];
      eexists; repeat split; reflexivity.
Qed.

Lemma catalogue_entries_are_found_witness :
  NoDup (map c_id mockCourses) /\
  exists d,
    lookup (js "605")
      (ResultsCard_mount (generateFakeData (js "Web Development") (js "beginner")))
      = Some d /\
    id d = js "605" /\
    title d = js "Backend Web Development With Go: Build An E-Manual Server" /\
    rating d = 4.8%Q /\ difficulty d = js "Beginner".
Proof.
  apply (catalogue_entries_are_found
           {| c_id := js "605";
              c_title := js "Backend Web Development With Go: Build An E-Manual Server";
              c_rating := 4.8; c_difficulty := js "Beginner" |}
           (ResultsCard_mount (generateFakeData (js "Web Development") (js "beginner")))).
  cbn. tauto.
Defined.

(** X5: the submit handler of the id form touches nothing but the detail
    panel; submitting the same field twice is the same as once; and
    submitting an emptied field leaves the panel as it was, so the details
    of the last successful lookup stay on the page. *)
Theorem course_submit_only_sets_details (i : jsstring) (c : ResultsCard) :
  let c' := handleCourseIdSubmit (setCourseId i c) in
  (data c' = data c /\ exportConfirmed c' = exportConfirmed c /\
   showExportOption c' = showExportOption c /\
   showCoursesDialog c' = showCoursesDialog c /\ courseId c' = i) /\
  handleCourseIdSubmit c' = c' /\
  lookup (js "") c' = lookup i c /\
  (forall x j c2, lookup (x :: j) c2 = lookup (x :: j) c).
Proof.
  intros c'.
  assert (L : forall x j c2, lookup (x :: j) c2 = lookup (x :: j) c).
  { intros x j c2. unfold lookup, handleCourseIdSubmit.
    cbn [courseId setCourseId falsy].
    destruct (find (fun course => streq (c_id course) (x :: j)) mockCourses);
      reflexivity. }
  unfold c', lookup, handleCourseIdSubmit.
  cbn [courseId setCourseId].
  destruct i as [|x i]; cbn [falsy].
  - repeat split; try reflexivity; apply L.
  - destruct (find (fun course => streq (c_id course) (x :: i)) mockCourses) eqn:F;
      cbn [courseId setCourseDetails setCourseId falsy courseDetails data
           exportConfirmed showExportOption showCoursesDialog];
      rewrite ?F; repeat split; try reflexivity; apply L.
Qed.

(** ** transformResources *)

(** X6: the resource bundle always has five categories of 3, 2, 3, 3 and
    3 entries; the topic is written into every book and course title,
    into the last community and the first tool; the practice platforms
    are the same for every request and nothing in the bundle depends on
    the skill level. *)
Theorem resources_bundle (t s : jsstring) :
  let r := transformResources (generateFakeData t s) in
  map (@List.length jsstring) [books r; courses r; communities r; tools r; practice r]
    = [3; 2; 3; 3; 3]%nat /\
  Forall (occurs_in t) (books r) /\
  Forall (occurs_in t) (courses r) /\
  (exists e, nth_error (communities r) 2 = Some e /\ occurs_in t e) /\
  (exists e, nth_error (tools r) 0 = Some e /\ occurs_in t e) /\
  (forall t' s', practice (transformResources (generateFakeData t' s')) = practice r) /\
  (forall s', transformResources (generateFakeData t s') = r).
Proof.
  intros r. unfold r.
  split; [reflexivity|].
  split.
  { repeat constructor.
    - exists (js "Introduction to "), []. now rewrite app_nil_r.
    - exists (js "Advanced "), (js " Techniques"). reflexivity.
    - exists (js "Mastering "), []. now rewrite app_nil_r. }
  split.
  { repeat constructor.
    - exists [], (js " for Beginners"). reflexivity.
    - exists (js "Professional "), (js " Masterclass"). reflexivity. }
  split.
  { eexists; split; [reflexivity|]. exists [], (js " Discord Servers"). reflexivity. }
  split.
  { eexists; split; [reflexivity|].
    exists [], (js " Development Environment"). reflexivity. }
  split; intros; reflexivity.
Qed.

(** ** RoadmapItem: the rows of the roadmap *)








(** X8: the "Learning Path" section of every result has 27 rows: the
    three phases at the left edge without branch mark, each followed by
    its groups at 20 and their entries at 40 pixels; only the three phase
    rows carry a description, and every phase is green, every group
    heading cyan or pink, every entry white. *)
Theorem learningPath_section (t s : jsstring) :
  let rows := learningPath_rows (generateFakeData t s) in
  map marginLeft rows
    = [ 0; 20; 40; 40; 40; 20; 40; 40; 20; 40; 40;
        0; 20; 40; 40; 40; 20; 40; 40; 20; 40; 40;
        0; 20; 40; 40; 40 ]%nat /\
  map branch rows = map (fun r => negb (Nat.eqb (marginLeft r) 0)) rows /\
  map (fun r => truthy (row_description r)) rows
    = map (fun r => Nat.eqb (marginLeft r) 0) rows /\
  Forall (fun r =>
            text_class r =
              match marginLeft r with
              | 0%nat => js "text-green-400"
              | 20%nat => if streq (row_text r) (js "Milestones:")
                          then js "text-pink-400" else js "text-cyan-400"
              | _ => js "text-white"
              end) rows.
Proof.
  intros rows. unfold rows. repeat split.
  repeat constructor.
Qed.

(** ** ResultsCard: the export prompt *)

(** X9: the export prompt answers once.  After "y" a second "y" or an "n"
    changes nothing, so one card never schedules two downloads; after
    "n" a later "y" is not possible and "n" itself schedules nothing. *)
Theorem export_prompt_answers_once (w : World) :
  react (react w ExportYes) ExportYes = react w ExportYes /\
  react (react w ExportYes) ExportNo = react w ExportYes /\
  react (react w ExportNo) ExportYes = react w ExportNo /\
  react (react w ExportNo) ExportNo = react w ExportNo /\
  timers (react w ExportNo) = timers w /\
  (List.length (timers (react w ExportYes)) <= S (List.length (timers w)))%nat.
Proof.
  unfold react, card_shows, handleExportPDF, on_card, setTimeout.
  destruct (resultsCard w) as [c|] eqn:E; cbn [negb].
  - destruct (exportConfirmed c) eqn:X; cbn [negb resultsCard with_resultsCard
      with_timers with_next_timer exportConfirmed setExportConfirmed timers].
    + rewrite E, X. cbn [negb]. repeat split; try reflexivity. lia.
    + repeat split; try reflexivity.
      rewrite length_app. cbn [List.length]. lia.
  - rewrite E. repeat split; try reflexivity. lia.
Qed.

(** X10: a pending export is not cancelled by "Start a new search".  On a
    settled result page the click on "y" is followed, [k] time units
    later, by the reset: the card and the results are gone, and the
    download still happens when the 1000 units are over. *)
Theorem export_survives_reset (w : World) (c : ResultsCard) (k : nat) :
  resultsCard w = Some c -> timers w = [] ->
  isLoading w = false -> progressBar w = None ->
  (k < 1000)%nat ->
  let w1 := startNewSearch (elapse k (handleExportPDF w)) in
  resultsCard w1 = None /\ results w1 = None /\ formData w1 = None /\
  (forall n, (n < 1000 - k)%nat -> downloads (elapse n w1) = downloads w) /\
  (forall n, (1000 - k <= n)%nat ->
     downloads (elapse n w1)
       = downloads w ++
         [ {| href := js "data:text/plain;charset=utf-8,";
              download := replace_whitespace_runs (r_topic (data c)) ++ js "_roadmap.pdf" |} ]).
Proof.
  intros Hc Ht Hl Hb Hk w1.
  set (W := with_next_timer (S (next_timer w))
              (with_resultsCard (Some (setExportConfirmed true c)) w)).
  assert (E : handleExportPDF w
              = with_timers [pending (next_timer w) 1000 None (ExportDownload (data c))] W).
  { unfold handleExportPDF. rewrite Hc. unfold setTimeout.
    cbn [timers with_resultsCard next_timer]. rewrite Ht. reflexivity. }
  set (W1 := with_resultsCard None
               (with_renders (S (renders w))
                  (setResults None (setFormData None W)))).
  assert (E1 : w1 = with_timers
                      [pending (next_timer w) (S (999 - k)) None (ExportDownload (data c))] W1).
  { unfold w1. rewrite E.
    replace 1000%nat with (k + S (999 - k))%nat by lia.
    rewrite elapse_wait.
    unfold startNewSearch, render, render_ProgressBar, render_ResultsCard.
    cbn [isLoading progressBar results with_timers with_renders setResults setFormData
         with_next_timer with_resultsCard W].
    rewrite Hl, Hb. reflexivity. }
  rewrite E1. repeat split.
  - intros n Hn.
    replace (S (999 - k)) with (n + S (999 - k - n))%nat by lia.
    rewrite elapse_wait. reflexivity.
  - intros n Hn.
    replace n with ((999 - k) + (1 + (n - (1000 - k))))%nat by lia.
    rewrite elapse_add.
    replace (S (999 - k)) with ((999 - k) + 1)%nat at 1 by lia.
    rewrite elapse_wait, elapse_add. cbn [elapse].
    rewrite tick_timeout, elapse_quiet by reflexivity.
    reflexivity.
Qed.

Lemma export_survives_reset_witness :
  let d := {| topic := js "Data Science"; skillLevel := js "advanced";
              aiEnhanced := true |} in
  let w1 := startNewSearch (elapse 400 (handleExportPDF (ready d))) in
  resultsCard w1 = None /\ results w1 = None /\ formData w1 = None /\
  (forall n, (n < 1000 - 400)%nat -> downloads (elapse n w1) = []) /\
  (forall n, (1000 - 400 <= n)%nat ->
     downloads (elapse n w1)
       = [ {| href := js "data:text/plain;charset=utf-8,";
              download := js "Data_Science_roadmap.pdf" |} ]).
Proof.
  apply (export_survives_reset
           (ready {| topic := js "Data Science"; skillLevel := js "advanced";
                     aiEnhanced := true |})
           (ResultsCard_mount (generateFakeData (js "Data Science") (js "advanced")))
           400); [reflexivity | reflexivity | reflexivity | reflexivity | lia].
Defined.

(** ** What the page keeps, whatever the user does *)

Lemma consistent_render (w : World) :
  truthy (results w) && isLoading w = false ->
  (forall b, progressBar w = Some b -> (0 <= progress b <= 100)%Z) ->
  consistent (render w).
Proof.
  intros H3 H4. unfold render, render_ResultsCard.
  set (w1 := render_ProgressBar _ _).
  assert (B : results w1 = results w /\ isLoading w1 = isLoading w /\
              isLoading w1 = truthy (progressBar w1) /\
              (forall b, progressBar w1 = Some b -> (0 <= progress b <= 100)%Z)).
  { unfold w1, render_ProgressBar, ProgressBar_cleanup.
    cbn [isLoading progressBar with_renders].
    destruct (isLoading w) eqn:L, (progressBar w) as [b|] eqn:P.
    - destruct (Bool.eqb (dep_isLoading b) true && same_closure (dep_onComplete b) _).
      + cbn [results isLoading progressBar with_renders]. rewrite L, P.
        split; [|split; [|split]]; try reflexivity. exact H4.
      + rewrite results_ProgressBar_effect, results_clearInterval.
        split; [|split; [|split]]; try (destruct (effect_timer b); exact L);
          try reflexivity.
        intros b' [= <-]. cbn [progress]. lia.
    - split; [|split; [|split]]; try exact L; try reflexivity.
      intros b' [= <-]. cbn [progress]. lia.
    - destruct (effect_timer b); (split; [|split; [|split]]);
        try exact L; try reflexivity; discriminate.
    - cbn [results isLoading progressBar with_renders]. rewrite L, P.
      split; [|split; [|split]]; try reflexivity. discriminate. }
  destruct B as (Br & Bl & B2 & B4).
  rewrite <- Br, <- Bl in H3.
  unfold consistent.
  destruct (results w1) as [r|] eqn:R; [destruct (resultsCard w1)|];
    cbn [results isLoading progressBar resultsCard with_resultsCard option_map data];
    rewrite ?R;
    (split; [reflexivity | split; [exact B2 | split; [exact H3 | exact B4]]]).
Qed.

Lemma consistent_record_completion (c : closure) (w : World) :
  consistent w -> consistent (record_completion c w).
Proof. exact (fun H => H). Qed.

Lemma consistent_handleLoadingComplete (c : closure) (w : World) :
  consistent w -> consistent (handleLoadingComplete c w).
Proof.
  intros H. unfold handleLoadingComplete.
  destruct (seen_formData c) as [fd|]; [|exact H].
  apply consistent_render; [reflexivity|].
  destruct H as (_ & _ & _ & H4). exact H4.
Qed.

Lemma consistent_ProgressBar_tick (i : nat) (c : closure) (w : World) :
  consistent w -> consistent (ProgressBar_tick i c w).
Proof.
  intros H. unfold ProgressBar_tick.
  destruct (progressBar w) as [b|] eqn:P; [|exact H].
  destruct H as (H1 & H2 & H3 & H4). specialize (H4 b P).
  rewrite P in H2. change increment with 1%Z.
  destruct (Z.geb_spec (progress b + 1) 100) as [G|G];
    (split; [exact H1 | split; [exact H2 | split; [exact H3 |]]]);
    intros b' [= <-]; cbn [progress setProgress]; lia.
Qed.

Lemma consistent_run (f : callback) (w : World) :
  consistent w -> consistent (run f w).
Proof.
  destruct f; cbn [run].
  - apply consistent_ProgressBar_tick.
  - apply consistent_handleLoadingComplete.
  - exact (fun H => H).
Qed.

Lemma consistent_fire (w : World) (i : nat) :
  consistent w -> consistent (fire w i).
Proof.
  intros H. unfold fire.
  destruct (find (fun t => Nat.eqb (timer_id t) i) (timers w)) as [t|]; [|exact H].
  apply consistent_run. destruct (period t); exact H.
Qed.

Lemma consistent_tick (w : World) : consistent w -> consistent (tick w).
Proof.
  intros H. unfold tick.
  assert (H0 : consistent (with_timers (map age (timers w)) w)) by exact H.
  revert H0. generalize (with_timers (map age (timers w)) w).
  induction (map timer_id (filter due (map age (timers w)))) as [|i ids IH];
    intros w0 H0; [exact H0|].
  cbn [fold_left]. apply IH. now apply consistent_fire.
Qed.

Lemma consistent_elapse (n : nat) (w : World) :
  consistent w -> consistent (elapse n w).
Proof.
  revert w; induction n as [|n IH]; intros w H; [exact H|].
  cbn [elapse]. apply IH. now apply consistent_tick.
Qed.

Lemma consistent_on_card (f : ResultsCard -> ResultsCard) (w : World) :
  (forall c, data (f c) = data c) ->
  consistent w -> consistent (on_card f w).
Proof.
  intros Hf H. unfold on_card.
  destruct (resultsCard w) as [c|] eqn:C; [|exact H].
  destruct H as (H1 & H2 & H3 & H4). rewrite C in H1.
  split; [|split; [exact H2 | split; [exact H3 | exact H4]]].
  cbn [results resultsCard with_resultsCard option_map] in *.
  now rewrite Hf.
Qed.

Lemma consistent_react (w : World) (e : event) :
  consistent w -> consistent (react w e).
Proof.
  intros H. destruct e; cbn [react].
  - destruct (truthy (formData w)); [exact H|].
    unfold CourseForm_handleSubmit.
    destruct (falsy topic0 || falsy skillLevel0); [exact H|].
    apply consistent_render; [reflexivity|]. apply H.
  - destruct (truthy (formData w) || truthy (results w)); [|exact H].
    apply consistent_render; [reflexivity|]. apply H.
  - destruct (card_shows _ w); [|exact H].
    unfold handleExportPDF.
    destruct (resultsCard w) as [c|] eqn:C; [|exact H].
    pose proof (consistent_on_card (setExportConfirmed true) w
                  (fun _ => eq_refl) H) as H'.
    unfold on_card in H'. rewrite C in H'. exact H'.
  - destruct (card_shows _ w); [|exact H]. now apply consistent_on_card.
  - destruct (card_shows _ w); [|exact H]. now apply consistent_on_card.
  - destruct (card_shows _ w); [|exact H]. now apply consistent_on_card.
  - destruct (card_shows _ w); [|exact H]. apply consistent_on_card; [|exact H].
    intros c. unfold handleCourseIdSubmit.
    destruct (falsy (courseId c)); [reflexivity|].
    destruct (find _ mockCourses); reflexivity.
  - destruct (truthy (resultsCard w)); [|exact H].
    repeat split; discriminate.
  - now apply consistent_elapse.
Qed.

Lemma consistent_play (es : list event) (w : World) :
  consistent w -> consistent (play es w).
Proof.
  unfold play. revert w; induction es as [|e es IH]; intros w H; [exact H|].
  cbn [fold_left]. apply IH. now apply consistent_react.
Qed.

Lemma consistent_Index_mount : consistent Index_mount.
Proof. repeat split; discriminate. Qed.

(** X11: whatever the user does and however long they wait, the card on
    the page is the card of the stored results (none without results),
    the bar is on the page exactly while [isLoading] is set, and the bar
    and results are never there together. *)
Theorem page_shows_its_state (es : list event) :
  let w := play es Index_mount in
  option_map data (resultsCard w) = results w /\
  truthy (resultsCard w) = truthy (results w) /\
  truthy (progressBar w) = isLoading w /\
  truthy (progressBar w) && truthy (resultsCard w) = false.
Proof.
  intros w. destruct (consistent_play es Index_mount consistent_Index_mount)
    as (H1 & H2 & H3 & _). fold w in H1, H2, H3.
  assert (T : truthy (resultsCard w) = truthy (results w)).
  { rewrite <- H1. now destruct (resultsCard w). }
  repeat split; try assumption; [now rewrite H2|].
  rewrite T, <- H2. now rewrite andb_comm.
Qed.

(** X12: the percentage on the page is never below 0 nor above 100,
    whatever the user does and however long they wait. *)
Theorem percentage_in_range (es : list event) (p : Z) :
  percentage (play es Index_mount) = Some p -> (0 <= p <= 100)%Z.
Proof.
  destruct (consistent_play es Index_mount consistent_Index_mount)
    as (_ & _ & _ & H4).
  unfold percentage. destruct (progressBar (play es Index_mount)) as [b|];
    [|discriminate].
  intros [= <-]. now apply H4.
Qed.

Lemma percentage_in_range_witness :
  percentage (play [Generate (js "Robotics") (js "advanced") true;
                    Elapse 1234; StartNewSearch; Elapse 777] Index_mount)
    = Some 25%Z /\ (0 <= 25 <= 100)%Z.
Proof.
  assert (E : percentage (play [Generate (js "Robotics") (js "advanced") true;
                                Elapse 1234; StartNewSearch; Elapse 777] Index_mount)
              = Some 25%Z) by (vm_compute; reflexivity).
  split; [exact E|].
  exact (percentage_in_range _ 25 E).
Defined.

(** ** The timers of the page *)

(** Dropping timers keeps the identifiers distinct. *)
Lemma ids_distinct_filter (keep : timer -> bool) (pending_timers : list timer) :
  NoDup (map timer_id pending_timers) ->
  NoDup (map timer_id (filter keep pending_timers)).
Proof.
  intros H. induction pending_timers as [|x l IH]; cbn [map filter] in *;
    [constructor|].
  inversion H as [|? ? Hx Hl]; subst.
  destruct (keep x); cbn [map]; [|now apply IH].
  constructor; [|now apply IH].
  intros Hin. apply Hx. apply in_map_iff in Hin as (y & E & Hy).
  apply filter_In in Hy as [Hy _]. apply in_map_iff. now exists y.
Qed.

Lemma NoDup_map_snoc {A B} (f : A -> B) (l : list A) (x : A) :
  NoDup (map f l) -> (forall y, In y l -> f y <> f x) ->
  NoDup (map f (l ++ [x])).
Proof.
  intros Hl Hx. rewrite map_app. cbn [map].
  apply NoDup_app; [exact Hl | repeat constructor; intros [] |].
  intros b Hb [<-|[]]. apply in_map_iff in Hb as (y & E & Hy).
  exact (Hx y Hy E).
Qed.

Lemma ids_fresh_clearInterval (t : option nat) (w : World) :
  ids_fresh w -> ids_fresh (clearInterval t w).
Proof.
  intros [Hn Hi]. destruct t as [i|]; [|now split].
  split; cbn [clearInterval timers next_timer with_timers].
  - now apply ids_distinct_filter.
  - intros x Hx. apply filter_In in Hx as [Hx _]. now apply Hi.
Qed.

Lemma ids_fresh_add (x : timer) (w : World) :
  timer_id x = next_timer w ->
  ids_fresh w ->
  ids_fresh (with_next_timer (S (next_timer w)) (with_timers (timers w ++ [x]) w)).
Proof.
  intros Hx [Hn Hi]. split; cbn [timers next_timer with_timers with_next_timer].
  - apply NoDup_map_snoc; [exact Hn|].
    intros y Hy. specialize (Hi y Hy). lia.
  - intros y Hy. apply in_app_iff in Hy as [Hy|[<-|[]]].
    + specialize (Hi y Hy). lia.
    + lia.
Qed.

Lemma owned_setTimeout (f : callback) (ms : nat) (w : World) :
  timers_owned w -> timers_owned (setTimeout f ms w).
Proof.
  intros [Hf Ho]. split.
  - now apply ids_fresh_add.
  - intros t p Ht Hp. cbn [setTimeout timers with_timers with_next_timer] in Ht.
    apply in_app_iff in Ht as [Ht|[<-|[]]]; [|discriminate Hp].
    exact (Ho t p Ht Hp).
Qed.

(** Once the interval of the mounted bar is cleared none is left. *)
Lemma cleanup_leaves_no_interval (b : ProgressBar) (w : World) :
  progressBar w = Some b -> intervals_owned w ->
  no_intervals (ProgressBar_cleanup b w).
Proof.
  intros Hb Ho t Ht. unfold ProgressBar_cleanup in Ht.
  destruct (period t) as [p|] eqn:Hp; [exfalso | reflexivity].
  destruct (effect_timer b) as [i|] eqn:Hi; cbn [clearInterval timers with_timers] in Ht.
  - apply filter_In in Ht as [Ht Hne].
    destruct (Ho t p Ht Hp) as (_ & b' & Hb' & He & _).
    rewrite Hb in Hb'. injection Hb' as <-. rewrite Hi in He. injection He as ->.
    rewrite Nat.eqb_refl in Hne. discriminate Hne.
  - destruct (Ho t p Ht Hp) as (_ & b' & Hb' & He & _).
    rewrite Hb in Hb'. injection Hb' as <-. rewrite Hi in He. discriminate He.
Qed.

Lemma owned_ProgressBar_effect (c : closure) (w : World) :
  ids_fresh w -> no_intervals w ->
  timers_owned (ProgressBar_effect true c w).
Proof.
  intros Hf Hn. split.
  - now apply ids_fresh_add.
  - intros t p Ht Hp.
    cbn [ProgressBar_effect setInterval timers with_timers with_next_timer
         with_progressBar] in Ht.
    apply in_app_iff in Ht as [Ht|[<-|[]]].
    + rewrite (Hn t Ht) in Hp. discriminate Hp.
    + cbn [period] in Hp. injection Hp as <-. split; [reflexivity|].
      eexists; split; [reflexivity|]. split; reflexivity.
Qed.

Lemma owned_render_ProgressBar (c : closure) (w : World) :
  timers_owned w -> timers_owned (render_ProgressBar c w).
Proof.
  intros [Hf Ho]. unfold render_ProgressBar.
  destruct (isLoading w), (progressBar w) as [b|] eqn:Hb.
  - destruct (Bool.eqb (dep_isLoading b) true && same_closure (dep_onComplete b) c);
      [now split|].
    apply owned_ProgressBar_effect.
    + now apply ids_fresh_clearInterval.
    + now apply cleanup_leaves_no_interval.
  - apply owned_ProgressBar_effect; [exact Hf|].
    intros t Ht. destruct (period t) as [p|] eqn:Hp; [|reflexivity].
    destruct (Ho t p Ht Hp) as (_ & b' & Hb' & _). rewrite Hb in Hb'. discriminate Hb'.
  - pose proof (cleanup_leaves_no_interval b w Hb Ho) as Hn.
    split.
    + exact (ids_fresh_clearInterval (effect_timer b) w Hf).
    + intros t p Ht Hp. rewrite (Hn t Ht) in Hp. discriminate Hp.
  - now split.
Qed.

Lemma owned_render (w : World) : timers_owned w -> timers_owned (render w).
Proof.
  intros H. unfold render.
  pose proof (owned_render_ProgressBar
                {| born := S (renders w); seen_formData := formData w |}
                (with_renders (S (renders w)) w) H) as H'.
  unfold render_ResultsCard.
  destruct (results _); [destruct (resultsCard _)|]; exact H'.
Qed.

Lemma owned_ProgressBar_tick (i : nat) (c : closure) (w : World) :
  timers_owned w -> timers_owned (ProgressBar_tick i c w).
Proof.
  intros H. unfold ProgressBar_tick.
  destruct (progressBar w) as [b|] eqn:Hb; [|exact H].
  assert (Keep : forall v w', timers_owned w' -> progressBar w' = Some b ->
                 timers_owned (with_progressBar (Some (setProgress v b)) w')).
  { intros v w' [Hf Ho] Hb'. split; [exact Hf|].
    intros t p Ht Hp. destruct (Ho t p Ht Hp) as (Hp30 & b' & Hb'' & He & Ha).
    rewrite Hb' in Hb''. injection Hb'' as <-.
    split; [exact Hp30|]. exists (setProgress v b). now repeat split. }
  destruct (progress b + increment >=? 100)%Z.
  - apply Keep.
    + apply owned_setTimeout. destruct H as [Hf Ho]. split.
      * now apply ids_fresh_clearInterval.
      * intros t p Ht Hp. cbn [clearInterval timers with_timers] in Ht.
        apply filter_In in Ht as [Ht _]. exact (Ho t p Ht Hp).
    + exact Hb.
  - now apply Keep.
Qed.

Lemma owned_run (f : callback) (w : World) :
  timers_owned w -> timers_owned (run f w).
Proof.
  intros H. destruct f as [i c | c | d]; cbn [run].
  - now apply owned_ProgressBar_tick.
  - unfold handleLoadingComplete.
    destruct (seen_formData c); [|exact H]. apply owned_render. exact H.
  - exact H.
Qed.

(** Changing how long timers have to go, or dropping some, keeps them
    owned. *)
Lemma owned_retimed (l : list timer) (w : World) :
  timers_owned w ->
  NoDup (map timer_id l) ->
  (forall t, In t l ->
     exists t0, In t0 (timers w) /\ timer_id t = timer_id t0 /\
                period t = period t0 /\ action t = action t0) ->
  timers_owned (with_timers l w).
Proof.
  intros [[Hn Hi] Ho] Hl Hsub. split; [split|]; cbn [timers with_timers next_timer].
  - exact Hl.
  - intros t Ht. destruct (Hsub t Ht) as (t0 & H0 & E & _). rewrite E. now apply Hi.
  - intros t p Ht Hp. destruct (Hsub t Ht) as (t0 & H0 & E & Ep & Ea).
    rewrite E, Ea. apply Ho; [exact H0 | now rewrite <- Ep].
Qed.

Lemma owned_fire (w : World) (i : nat) :
  timers_owned w -> timers_owned (fire w i).
Proof.
  intros H. unfold fire.
  destruct (find (fun t => Nat.eqb (timer_id t) i) (timers w)) as [t|]; [|exact H].
  apply owned_run. destruct (period t) as [p|].
  - apply owned_retimed; [exact H | |].
    + rewrite map_map.
      replace (map _ (timers w)) with (map timer_id (timers w)); [apply H|].
      apply map_ext. intros x. now destruct (Nat.eqb (timer_id x) i).
    + intros x Hx. apply in_map_iff in Hx as (x0 & <- & H0).
      exists x0. split; [exact H0|]. now destruct (Nat.eqb (timer_id x0) i).
  - destruct H as [Hf Ho]. split; [now apply ids_fresh_clearInterval|].
    intros x p Hx Hp. cbn [clearInterval timers with_timers] in Hx.
    apply filter_In in Hx as [Hx _]. exact (Ho x p Hx Hp).
Qed.

Lemma owned_tick (w : World) : timers_owned w -> timers_owned (tick w).
Proof.
  intros H. unfold tick.
  assert (H0 : timers_owned (with_timers (map age (timers w)) w)).
  { apply owned_retimed; [exact H | |].
    - rewrite map_map. apply H.
    - intros x Hx. apply in_map_iff in Hx as (x0 & <- & H0). now exists x0. }
  revert H0. generalize (with_timers (map age (timers w)) w).
  induction (map timer_id (filter due (map age (timers w)))) as [|i ids IH];
    intros w0 H0; [exact H0|].
  cbn [fold_left]. apply IH. now apply owned_fire.
Qed.

Lemma owned_elapse (n : nat) (w : World) :
  timers_owned w -> timers_owned (elapse n w).
Proof.
  revert w; induction n as [|n IH]; intros w H; [exact H|].
  cbn [elapse]. apply IH. now apply owned_tick.
Qed.

Lemma owned_react (w : World) (e : event) :
  timers_owned w -> timers_owned (react w e).
Proof.
  intros H. destruct e; cbn [react].
  - destruct (truthy (formData w)); [exact H|].
    unfold CourseForm_handleSubmit.
    destruct (falsy topic0 || falsy skillLevel0); [exact H|].
    apply owned_render. exact H.
  - destruct (truthy (formData w) || truthy (results w)); [|exact H].
    apply owned_render. exact H.
  - destruct (card_shows _ w); [|exact H].
    unfold handleExportPDF. destruct (resultsCard w); [|exact H].
    apply owned_setTimeout. exact H.
  - destruct (card_shows _ w); [|exact H].
    unfold on_card. destruct (resultsCard w); exact H.
  - destruct (card_shows _ w); [|exact H].
    unfold on_card. destruct (resultsCard w); exact H.
  - destruct (card_shows _ w); [|exact H].
    unfold on_card. destruct (resultsCard w); exact H.
  - destruct (card_shows _ w); [|exact H].
    unfold on_card. destruct (resultsCard w); exact H.
  - destruct (truthy (resultsCard w)); [|exact H].
    split; [split; [constructor | intros t []] | intros t p []].
  - now apply owned_elapse.
Qed.

Lemma owned_play (es : list event) (w : World) :
  timers_owned w -> timers_owned (play es w).
Proof.
  unfold play. revert w; induction es as [|e es IH]; intros w H; [exact H|].
  cbn [fold_left]. apply IH. now apply owned_react.
Qed.

Lemma owned_Index_mount : timers_owned Index_mount.
Proof. split; [split; [constructor | intros t []] | intros t p []]. Qed.

Lemma same_id_at_most_one (l : list timer) (i : nat) :
  NoDup (map timer_id l) ->
  (forall t, In t l -> timer_id t = i) ->
  (List.length l <= 1)%nat.
Proof.
  destruct l as [|x [|y l]]; cbn [List.length]; intros Hn Hi; try lia.
  exfalso. cbn [map] in Hn. inversion Hn as [|? ? Hx _]; subst.
  apply Hx. left. rewrite (Hi x), (Hi y); [reflexivity | right; now left | now left].
Qed.

(** X13: whatever the user does and however long they wait, at most one
    interval is pending, and it is the one the effect of the bar now on
    the page started, ticking every 30 units; without a bar no interval
    is pending.  Timer identifiers are never given out twice. *)
Theorem one_interval_at_a_time (es : list event) :
  let w := play es Index_mount in
  (List.length (filter is_interval (timers w)) <= 1)%nat /\
  (progressBar w = None -> filter is_interval (timers w) = []) /\
  Forall (fun t =>
            is_interval t = true ->
            period t = Some 30%nat /\
            option_map effect_timer (progressBar w) = Some (Some (timer_id t)))
         (timers w) /\
  NoDup (map timer_id (timers w)) /\
  Forall (fun t => (timer_id t < next_timer w)%nat) (timers w).
Proof.
  intros w. destruct (owned_play es Index_mount owned_Index_mount) as [[Hn Hi] Ho].
  fold w in Hn, Hi, Ho.
  assert (Own : forall t, In t (timers w) -> is_interval t = true ->
                period t = Some 30%nat /\
                option_map effect_timer (progressBar w) = Some (Some (timer_id t))).
  { intros t Ht Hp. unfold is_interval in Hp.
    destruct (period t) as [p|] eqn:E; [|discriminate Hp].
    destruct (Ho t p Ht E) as (-> & b & Hb & He & _).
    split; [reflexivity|]. rewrite Hb. cbn [option_map]. now rewrite He. }
  split; [|split; [|split; [|split]]].
  - destruct (progressBar w) as [b|] eqn:Hb.
    + destruct (effect_timer b) as [i|] eqn:He.
      * apply (same_id_at_most_one _ i); [now apply ids_distinct_filter|].
        intros t Ht. apply filter_In in Ht as [Ht Hp].
        destruct (Own t Ht Hp) as [_ E]. cbn [option_map] in E.
        rewrite He in E. now injection E.
      * destruct (filter is_interval (timers w)) as [|t l] eqn:F; [cbn; lia|].
        assert (Ht : In t (filter is_interval (timers w))) by (rewrite F; now left).
        apply filter_In in Ht as [Ht Hp].
        destruct (Own t Ht Hp) as [_ E]. cbn [option_map] in E.
        rewrite He in E. discriminate E.
    + destruct (filter is_interval (timers w)) as [|t l] eqn:F; [cbn; lia|].
      assert (Ht : In t (filter is_interval (timers w))) by (rewrite F; now left).
      apply filter_In in Ht as [Ht Hp].
      destruct (Own t Ht Hp) as [_ E]. discriminate E.
  - intros Hb. destruct (filter is_interval (timers w)) as [|t l] eqn:F; [reflexivity|].
    assert (Ht : In t (filter is_interval (timers w))) by (rewrite F; now left).
    apply filter_In in Ht as [Ht Hp].
    destruct (Own t Ht Hp) as [_ E]. rewrite Hb in E. discriminate E.
  - apply Forall_forall. exact Own.
  - exact Hn.
  - apply Forall_forall. exact Hi.
Qed.

(** ** A progress run on any page *)

Lemma elapse_wait_to (k r r' i : nat) (p : option nat) (f : callback) (w : World) :
  r' = (k + S r)%nat ->
  elapse k (with_timers [pending i r' p f] w) = with_timers [pending i (S r) p f] w.
Proof. intros ->. apply elapse_wait. Qed.

Section AnyRun.

Variable W : World.
Variable i : nat.
Variable c : closure.

Lemma running_timers (p : Z) (r : nat) :
  running W i c p r
    = with_timers [pending i r (Some 30%nat) (ProgressTick i c)]
        (with_progressBar
           (Some {| progress := p; effect_timer := Some i;
                    dep_isLoading := true; dep_onComplete := c |}) W).
Proof. reflexivity. Qed.

Lemma finishing_timers (r : nat) :
  finishing W i c r
    = with_timers [pending (next_timer W) r None (Complete c)]
        (with_progressBar
           (Some {| progress := 100; effect_timer := Some i;
                    dep_isLoading := true; dep_onComplete := c |})
           (with_next_timer (S (next_timer W)) W)).
Proof. reflexivity. Qed.

Lemma running_wait (p : Z) (k : nat) :
  (k < 30)%nat -> elapse k (running W i c p 30) = running W i c p (30 - k).
Proof.
  intros Hk. rewrite (running_timers p 30).
  replace 30%nat with (k + S (29 - k))%nat at 1 by lia.
  rewrite elapse_wait. replace (30 - k)%nat with (S (29 - k)) by lia.
  reflexivity.
Qed.

Lemma running_tick (p : Z) :
  (p + increment < 100)%Z ->
  elapse 30 (running W i c p 30) = running W i c (p + increment) 30.
Proof.
  intros Hp. change 30%nat with (29 + 1)%nat at 1.
  rewrite elapse_add, (running_wait p 29) by lia.
  change (30 - 29)%nat with 1%nat. cbn [elapse].
  rewrite (running_timers p 1), tick_interval.
  cbn [run]. unfold ProgressBar_tick.
  cbn [progressBar with_timers with_progressBar progress].
  destruct (Z.geb_spec (p + increment) 100) as [H|_]; [lia|].
  reflexivity.
Qed.

Lemma running_last (p : Z) :
  (p + increment >= 100)%Z ->
  elapse 30 (running W i c p 30) = finishing W i c grace.
Proof.
  intros Hp. change 30%nat with (29 + 1)%nat at 1.
  rewrite elapse_add, (running_wait p 29) by lia.
  change (30 - 29)%nat with 1%nat. cbn [elapse].
  rewrite (running_timers p 1), tick_interval.
  cbn [run]. unfold ProgressBar_tick.
  cbn [progressBar with_timers with_progressBar progress].
  destruct (Z.geb_spec (p + increment) 100) as [_|H]; [|lia].
  unfold clearInterval, setTimeout, finishing.
  cbn [timers with_timers with_progressBar filter pending timer_id next_timer].
  rewrite Nat.eqb_refl. reflexivity.
Qed.

Lemma running_ticks (q : nat) :
  (q <= 99)%nat ->
  elapse (30 * q) (running W i c 0 30) = running W i c (increment * Z.of_nat q) 30.
Proof.
  induction q as [|q IH]; intros Hq.
  - reflexivity.
  - replace (30 * S q)%nat with (30 * q + 30)%nat by lia.
    rewrite elapse_add, IH by lia.
    rewrite running_tick.
    + f_equal. lia.
    + destruct increment_exact as (_ & _ & _ & ->). lia.
Qed.

Lemma running_at (n : nat) :
  (n < 3000)%nat ->
  elapse n (running W i c 0 30)
    = running W i c (increment * Z.of_nat (n / 30)) (30 - n mod 30).
Proof.
  intros Hn. rewrite (Nat.div_mod_eq n 30) at 1.
  assert (n / 30 < 100)%nat by (apply Nat.Div0.div_lt_upper_bound; lia).
  assert (n mod 30 < 30)%nat by (apply Nat.mod_upper_bound; lia).
  rewrite elapse_add, running_ticks by lia.
  now apply running_wait.
Qed.

Lemma finishing_at (n : nat) :
  (3000 <= n < 3500)%nat ->
  elapse n (running W i c 0 30) = finishing W i c (3500 - n).
Proof.
  intros Hn. replace n with (30 * 99 + (30 + (n - 3000)))%nat at 1 by lia.
  rewrite elapse_add, running_ticks, elapse_add by lia.
  rewrite running_last by (destruct increment_exact as (_ & _ & _ & ->); lia).
  rewrite (finishing_timers grace).
  rewrite (elapse_wait_to (n - 3000) (3499 - n)) by (unfold grace; lia).
  replace (3500 - n)%nat with (S (3499 - n)) by lia.
  reflexivity.
Qed.

(** When the grace delay is over [onComplete] is called on the page as
    it then is: the bar still full, no timer left. *)
Lemma completing_at :
  elapse 3500 (running W i c 0 30)
    = handleLoadingComplete c
        (with_timers []
           (with_progressBar
              (Some {| progress := 100; effect_timer := Some i;
                       dep_isLoading := true; dep_onComplete := c |})
              (with_next_timer (S (next_timer W)) W))).
Proof.
  change 3500%nat with (3499 + 1)%nat.
  rewrite elapse_add, finishing_at by lia.
  change (3500 - 3499)%nat with 1%nat. cbn [elapse].
  rewrite (finishing_timers 1), tick_timeout. reflexivity.
Qed.

End AnyRun.

(** ** Index: any request on a settled page, and a reset too early *)

(** The page right after an accepted submission: a run has begun, with
    the interval as the only timer. *)
Lemma submitted_page (w : World) (d : FormData) :
  formData w = None -> timers w = [] ->
  match progressBar w with
  | Some b => Nat.eqb (born (dep_onComplete b)) (S (renders w)) = false
  | None => True
  end ->
  let w0 := handleFormSubmit d w in
  w0 = running w0 (next_timer w)
         {| born := S (renders w); seen_formData := Some d |} 0 30 /\
  (results w0 = None /\ completions w0 = completions w /\
   next_timer w0 = S (next_timer w) /\ resultsCard w0 = None /\
   toasts w0 = toasts w ++
     [ {| toast_title := js "Request submitted";
          toast_description := js "Generating learning path for " ++ topic d |} ] /\
   downloads w0 = downloads w /\ formData w0 = Some d /\
   renders w0 = S (renders w)).
Proof.
  intros Hf Ht Hb.
  destruct w as [fd il rs rn pb rc tm nt ts dl cp].
  cbn [formData timers progressBar renders dep_onComplete next_timer] in *.
  subst fd tm. destruct pb as [b|].
  - unfold handleFormSubmit, render, render_ProgressBar, same_closure,
      ProgressBar_cleanup.
    cbn [isLoading progressBar setFormData setIsLoading setResults toast with_renders
         renders born formData].
    rewrite Hb, andb_false_r. destruct (effect_timer b); repeat split.
  - repeat split.
Qed.

(** The page right after [onComplete] stored a result. *)
Lemma completed_page (X : World) (c : closure) (fd : FormData) :
  seen_formData c = Some fd -> timers X = [] -> resultsCard X = None ->
  let r := generateFakeData (topic fd) (skillLevel fd) in
  let w' := handleLoadingComplete c X in
  results w' = Some r /\
  resultsCard w' = Some (ResultsCard_mount r) /\
  isLoading w' = false /\
  progressBar w' = None /\
  timers w' = [] /\
  completions w' = completions X ++ [c] /\
  toasts w' = toasts X ++
    [ {| toast_title := js "Learning path ready!";
         toast_description := js "Your personalized roadmap has been generated" |} ] /\
  downloads w' = downloads X /\
  formData w' = formData X.
Proof.
  intros Hc Ht Hk. unfold handleLoadingComplete. rewrite Hc.
  destruct X as [fd0 il rs rn pb rc tm nt ts dl cp].
  cbn [timers resultsCard] in *. subst tm rc.
  destruct pb as [b|]; [destruct (effect_timer b) eqn:He|];
    unfold render, render_ProgressBar, ProgressBar_cleanup;
    cbn [isLoading progressBar setResults setIsLoading toast record_completion
         with_renders];
    rewrite ?He; repeat split.
Qed.

(** X14: on any page without form data and without pending timers (a
    fresh page, a page after "Start a new search", even a page whose bar
    got stuck), an accepted submission runs like the first one: the bar
    counts up to 100 in 3000 time units, nothing is stored or called
    before 3500, and from 3500 on the result of this very request is
    stored, shown on a new card (export and course panel in their initial
    state), the bar is gone, no timer is left, and exactly the two
    notifications and one completion were added. *)
Theorem submission_completes (w : World) (t s : jsstring) (a : bool) :
  formData w = None -> timers w = [] ->
  match progressBar w with
  | Some b => Nat.eqb (born (dep_onComplete b)) (S (renders w)) = false
  | None => True
  end ->
  falsy t = false -> falsy s = false ->
  let d := {| topic := t; skillLevel := s; aiEnhanced := a |} in
  let c := {| born := S (renders w); seen_formData := Some d |} in
  let w0 := react w (Generate t s a) in
  (forall n, (n <= 3000)%nat ->
     percentage (elapse n w0) = Some (increment * Z.of_nat (n / 30))%Z) /\
  (forall n, (n < 3500)%nat ->
     results (elapse n w0) = None /\ completions (elapse n w0) = completions w) /\
  (forall n, (3500 <= n)%nat ->
     results (elapse n w0) = Some (generateFakeData t s) /\
     resultsCard (elapse n w0) = Some (ResultsCard_mount (generateFakeData t s)) /\
     isLoading (elapse n w0) = false /\
     progressBar (elapse n w0) = None /\
     timers (elapse n w0) = [] /\
     completions (elapse n w0) = completions w ++ [c] /\
     toasts (elapse n w0)
       = toasts w ++
         [ {| toast_title := js "Request submitted";
              toast_description := js "Generating learning path for " ++ t |};
           {| toast_title := js "Learning path ready!";
              toast_description := js "Your personalized roadmap has been generated" |} ] /\
     downloads (elapse n w0) = downloads w /\
     formData (elapse n w0) = Some d).
Proof.
  intros Hf Ht Hb Hft Hfs d c w0.
  assert (Hw0 : w0 = handleFormSubmit d w).
  { unfold w0, react, CourseForm_handleSubmit. now rewrite Hf, Hft, Hfs. }
  destruct (submitted_page w d Hf Ht Hb) as (E & R).
  fold c in E. rewrite <- Hw0 in E, R.
  destruct R as (Rr & Rc & Rn & Rk & Rt & Rd & Rf & Rrn).
  split; [|split].
  - intros n Hn. rewrite E. destruct (Nat.eq_dec n 3000) as [->|Hne].
    + rewrite finishing_at by lia. reflexivity.
    + rewrite running_at by lia. reflexivity.
  - intros n Hn. rewrite E. destruct (Nat.lt_ge_cases n 3000).
    + rewrite running_at by lia. now split.
    + rewrite finishing_at by lia. now split.
  - intros n Hn. replace n with (3500 + (n - 3500))%nat by lia.
    rewrite elapse_add, E, completing_at.
    match goal with
    | |- context [handleLoadingComplete c ?X] =>
        destruct (completed_page X c d eq_refl eq_refl Rk)
          as (Cr & Ck & Cl & Cb & Ct & Cc & Cs & Cd & Cf)
    end.
    rewrite elapse_quiet by exact Ct.
    rewrite Cr, Ck, Cl, Cb, Ct, Cc, Cs, Cd, Cf.
    cbn [completions toasts downloads formData with_timers with_progressBar
         with_next_timer].
    rewrite Rc, Rt, Rd, Rf, <- app_assoc. repeat split.
Qed.

(** The second request of a session: submit, wait for the result, start
    over, submit something else. *)
Lemma submission_completes_witness :
  let w := play [Generate (js "Web Development") (js "beginner") false;
                 Elapse 3500; StartNewSearch] Index_mount in
  let w0 := react w (Generate (js "Robotics") (js "advanced") true) in
  formData w = None /\ timers w = [] /\
  results (elapse 3499 w0) = None /\
  results (elapse 3500 w0) = Some (generateFakeData (js "Robotics") (js "advanced")) /\
  resultsCard (elapse 3500 w0)
    = Some (ResultsCard_mount (generateFakeData (js "Robotics") (js "advanced"))) /\
  List.length (completions (elapse 3500 w0)) = 2%nat.
Proof.
  cbv zeta.
  set (w := play [Generate (js "Web Development") (js "beginner") false;
                  Elapse 3500; StartNewSearch] Index_mount).
  assert (Hf : formData w = None) by (vm_compute; reflexivity).
  assert (Ht : timers w = []) by (vm_compute; reflexivity).
  assert (Hb : match progressBar w with
               | Some b => Nat.eqb (born (dep_onComplete b)) (S (renders w)) = false
               | None => True
               end) by (vm_compute; exact I).
  assert (Hc : List.length (completions w) = 1%nat) by (vm_compute; reflexivity).
  destruct (submission_completes w (js "Robotics") (js "advanced") true
              Hf Ht Hb eq_refl eq_refl) as (_ & Hbefore & Hafter).
  destruct (Hbefore 3499%nat ltac:(lia)) as [Hr _].
  destruct (Hafter 3500%nat ltac:(lia)) as (Hres & Hcard & _ & _ & _ & Hcomp & _).
  split; [exact Hf|]. split; [exact Ht|]. split; [exact Hr|].
  split; [exact Hres|]. split; [exact Hcard|].
  rewrite Hcomp, length_app, Hc. reflexivity.
Defined.

(** X15: "Start a new search" while the bar is still counting does not
    end the stage.  The click empties the form data but leaves
    [isLoading] set: the bar starts again from 0 and its completion
    callback, created without form data, is called 3500 units later and
    does nothing.  From then on the page shows the form together with a
    full bar, no result, and no timer is left to change that. *)
Theorem early_reset_leaves_bar_stuck (t s : jsstring) (a : bool) (n : nat) :
  falsy t = false -> falsy s = false -> (n < 3000)%nat ->
  let w := play [Generate t s a; Elapse n; StartNewSearch] Index_mount in
  (formData w = None /\ isLoading w = true /\ percentage w = Some 0%Z) /\
  (forall m, (m < 3500)%nat ->
     completions (elapse m w) = [] /\ results (elapse m w) = None) /\
  (forall m, (3500 <= m)%nat ->
     completions (elapse m w) = [ {| born := 3; seen_formData := None |} ] /\
     results (elapse m w) = None /\
     resultsCard (elapse m w) = None /\
     formData (elapse m w) = None /\
     isLoading (elapse m w) = true /\
     percentage (elapse m w) = Some 100%Z /\
     timers (elapse m w) = [] /\
     List.length (toasts (elapse m w)) = 1%nat).
Proof.
  intros Ht Hs Hn w.
  set (d := {| topic := t; skillLevel := s; aiEnhanced := a |}).
  set (c := {| born := 3; seen_formData := None |}).
  set (w1 := startNewSearch
               (loading d (increment * Z.of_nat (n / 30)) (30 - n mod 30))).
  assert (Hw : w = w1).
  { unfold w, play. cbn [fold_left].
    rewrite (accepted t s a Ht Hs). cbn [react].
    fold d. rewrite loading_at by lia. reflexivity. }
  assert (E : w1 = running w1 2 c 0 30) by reflexivity.
  rewrite Hw. split; [repeat split|]. split.
  - intros m Hm. rewrite E. destruct (Nat.lt_ge_cases m 3000).
    + rewrite running_at by lia. split; reflexivity.
    + rewrite finishing_at by lia. split; reflexivity.
  - intros m Hm. replace m with (3500 + (m - 3500))%nat by lia.
    rewrite elapse_add, E, completing_at.
    rewrite elapse_quiet by reflexivity.
    repeat split.
Qed.

Lemma early_reset_leaves_bar_stuck_witness :
  let w := play [Generate (js "Cloud Computing") (js "intermediate") false;
                 Elapse 1500; StartNewSearch] Index_mount in
  (1500 < 3000)%nat /\
  completions (elapse 4000 w) = [ {| born := 3; seen_formData := None |} ] /\
  results (elapse 4000 w) = None /\
  formData (elapse 4000 w) = None /\
  isLoading (elapse 4000 w) = true /\
  percentage (elapse 4000 w) = Some 100%Z /\
  timers (elapse 4000 w) = [].
Proof.
  cbv zeta.
  destruct (early_reset_leaves_bar_stuck
              (js "Cloud Computing") (js "intermediate") false 1500
              eq_refl eq_refl ltac:(lia)) as (_ & _ & H).
  destruct (H 4000%nat ltac:(lia)) as (Hc & Hr & _ & Hf & Hl & Hp & Ht & _).
  split; [lia|]. repeat split; assumption.
Defined.

(** ** ResultsCard: what its panels keep *)

Lemma resultsCard_clearInterval (t : option nat) (w : World) :
  resultsCard (clearInterval t w) = resultsCard w.
Proof. destruct t; reflexivity. Qed.

Lemma resultsCard_render_ProgressBar (c : closure) (w : World) :
  resultsCard (render_ProgressBar c w) = resultsCard w /\
  results (render_ProgressBar c w) = results w.
Proof.
  unfold render_ProgressBar, ProgressBar_cleanup.
  destruct (isLoading w), (progressBar w) as [b|]; try (split; reflexivity).
  - destruct (Bool.eqb (dep_isLoading b) true && same_closure (dep_onComplete b) c);
      [split; reflexivity|].
    destruct (effect_timer b); split; reflexivity.
  - destruct (effect_timer b); split; reflexivity.
Qed.

Lemma card_ok_mount (r : Result) : card_ok (ResultsCard_mount r).
Proof.
  split; [discriminate|]. split; [discriminate|]. intros d H; discriminate H.
Qed.

Lemma card_ok_render (w : World) : page_card_ok w -> page_card_ok (render w).
Proof.
  intros H c. unfold render, render_ResultsCard.
  set (w1 := render_ProgressBar _ _).
  destruct (resultsCard_render_ProgressBar
              {| born := S (renders w); seen_formData := formData w |}
              (with_renders (S (renders w)) w)) as [Ek _].
  fold w1 in Ek. change (resultsCard (with_renders (S (renders w)) w))
                   with (resultsCard w) in Ek.
  destruct (results w1) as [r|]; [destruct (resultsCard w1) as [c0|] eqn:E0|];
    cbn [resultsCard with_resultsCard]; intros [= <-].
  - symmetry in Ek. exact (H c0 Ek).
  - apply card_ok_mount.
Qed.

Lemma card_ok_run (f : callback) (w : World) :
  page_card_ok w -> page_card_ok (run f w).
Proof.
  intros H. destruct f as [i c | c | d]; cbn [run].
  - unfold ProgressBar_tick. destruct (progressBar w) as [b|]; [|exact H].
    destruct (progress b + increment >=? 100)%Z; exact H.
  - unfold handleLoadingComplete.
    destruct (seen_formData c); [|exact H]. apply card_ok_render. exact H.
  - exact H.
Qed.

Lemma card_ok_fire (w : World) (i : nat) :
  page_card_ok w -> page_card_ok (fire w i).
Proof.
  intros H. unfold fire.
  destruct (find (fun t => Nat.eqb (timer_id t) i) (timers w)) as [t|]; [|exact H].
  apply card_ok_run. destruct (period t); exact H.
Qed.

Lemma card_ok_tick (w : World) : page_card_ok w -> page_card_ok (tick w).
Proof.
  intros H. unfold tick.
  assert (H0 : page_card_ok (with_timers (map age (timers w)) w)) by exact H.
  revert H0. generalize (with_timers (map age (timers w)) w).
  induction (map timer_id (filter due (map age (timers w)))) as [|i ids IH];
    intros w0 H0; [exact H0|].
  cbn [fold_left]. apply IH. now apply card_ok_fire.
Qed.

Lemma card_ok_elapse (n : nat) (w : World) :
  page_card_ok w -> page_card_ok (elapse n w).
Proof.
  revert w; induction n as [|n IH]; intros w H; [exact H|].
  cbn [elapse]. apply IH. now apply card_ok_tick.
Qed.

(** A handler of the card, run while its control is shown. *)
Lemma card_ok_on_card (p : ResultsCard -> bool) (f : ResultsCard -> ResultsCard)
    (w : World) :
  (forall c, card_ok c -> p c = true -> card_ok (f c)) ->
  page_card_ok w ->
  page_card_ok (if card_shows p w then on_card f w else w).
Proof.
  intros Hf H. unfold card_shows, on_card.
  destruct (resultsCard w) as [c|] eqn:C; [|exact H].
  destruct (p c) eqn:P; [|exact H].
  intros c' [= <-]. apply Hf; [now apply H | exact P].
Qed.

Lemma card_ok_handleCourseIdSubmit (c : ResultsCard) :
  card_ok c -> exportConfirmed c && showCoursesDialog c = true ->
  card_ok (handleCourseIdSubmit c).
Proof.
  intros H G. apply andb_true_iff in G as [_ Gd].
  unfold handleCourseIdSubmit.
  destruct (falsy (courseId c)) eqn:F; [exact H|].
  destruct H as (H1 & _ & _).
  destruct (find (fun course => streq (c_id course) (courseId c)) mockCourses)
    as [course|] eqn:E.
  - apply find_some in E as [Hin Heq]. apply streq_eq in Heq.
    split; [exact H1|]. split; [intros _; exact Gd|].
    intros d [= <-]. cbn [id title]. split; [exact Gd|].
    split; [now rewrite Heq|]. left. now exists course.
  - split; [exact H1|]. split; [intros _; exact Gd|].
    intros d [= <-]. cbn [id title]. split; [exact Gd|].
    split; [exact F|]. now right.
Qed.

Lemma card_ok_react (w : World) (e : event) :
  page_card_ok w -> page_card_ok (react w e).
Proof.
  intros H. destruct e; cbn [react].
  - destruct (truthy (formData w)); [exact H|].
    unfold CourseForm_handleSubmit.
    destruct (falsy topic0 || falsy skillLevel0); [exact H|].
    apply card_ok_render. exact H.
  - destruct (truthy (formData w) || truthy (results w)); [|exact H].
    apply card_ok_render. exact H.
  - unfold card_shows, handleExportPDF.
    destruct (resultsCard w) as [c|] eqn:C; [|exact H].
    destruct (negb (exportConfirmed c)); [|exact H].
    intros c' Hc'.
    cbn [setTimeout resultsCard with_timers with_next_timer with_resultsCard] in Hc'.
    injection Hc' as <-. destruct (H c C) as (H1 & H2 & H3).
    split; [intros _; reflexivity | split; [exact H2 | exact H3]].
  - apply card_ok_on_card; [|exact H].
    intros c0 (H1 & H2 & H3) _.
    split; [intros _; reflexivity | split; [exact H2 | exact H3]].
  - apply card_ok_on_card; [|exact H].
    intros c0 (H1 & H2 & H3) G. apply andb_true_iff in G as [G _].
    split; [intros _; exact G|]. split; [reflexivity|].
    intros d Hd. destruct (H3 d Hd) as (_ & K). split; [reflexivity | exact K].
  - apply card_ok_on_card; [|exact H].
    intros c0 (H1 & H2 & H3) G. apply andb_true_iff in G as [_ G].
    split; [exact H1|]. split; [intros _; exact G | exact H3].
  - apply card_ok_on_card; [|exact H].
    intros c0. apply card_ok_handleCourseIdSubmit.
  - destruct (truthy (resultsCard w)); [|exact H]. intros c [=].
  - now apply card_ok_elapse.
Qed.

Lemma card_ok_play (es : list event) (w : World) :
  page_card_ok w -> page_card_ok (play es w).
Proof.
  unfold play. revert w; induction es as [|e es IH]; intros w H; [exact H|].
  cbn [fold_left]. apply IH. now apply card_ok_react.
Qed.

(** X16: whatever the user does and however long they wait, a card never
    shows the course table before the export prompt was answered, never
    holds a typed id or course details without the table open, and the
    details it shows always carry a non-empty id and are those of a
    catalogue entry or the "Custom Course" placeholder. *)
Theorem card_panels_in_order (es : list event) (c : ResultsCard) :
  resultsCard (play es Index_mount) = Some c ->
  (showCoursesDialog c = true -> exportConfirmed c = true) /\
  (falsy (courseId c) = false -> showCoursesDialog c = true) /\
  (forall d, courseDetails c = Some d ->
     showCoursesDialog c = true /\
     exportConfirmed c = true /\
     falsy (id d) = false /\
     ((exists course, In course mockCourses /\
                      id d = c_id course /\ title d = c_title course) \/
      title d = js "Custom Course")).
Proof.
  intros Hc.
  assert (H0 : page_card_ok Index_mount) by (intros c0 [=]).
  destruct (card_ok_play es Index_mount H0 c Hc) as (H1 & H2 & H3).
  split; [exact H1|]. split; [exact H2|].
  intros d Hd. destruct (H3 d Hd) as (Hs & Hi & Hk).
  split; [exact Hs|]. split; [now apply H1|]. now split.
Qed.

Lemma card_panels_in_order_witness :
  let es := [Generate (js "DevOps") (js "beginner") false; Elapse 3500;
             ExportNo; ShowCourses; TypeCourseId (js "396"); SubmitCourseId] in
  exists c d,
    resultsCard (play es Index_mount) = Some c /\
    courseDetails c = Some d /\
    showCoursesDialog c = true /\ exportConfirmed c = true /\
    falsy (id d) = false.
Proof.
  cbv zeta.
  set (es := [Generate (js "DevOps") (js "beginner") false; Elapse 3500;
              ExportNo; ShowCourses; TypeCourseId (js "396"); SubmitCourseId]).
  destruct (resultsCard (play es Index_mount)) as [c|] eqn:Hc;
    [|vm_compute in Hc; discriminate Hc].
  destruct (courseDetails c) as [d|] eqn:Hd.
  - exists c, d.
    destruct (card_panels_in_order es c Hc) as (_ & _ & H3).
    destruct (H3 d Hd) as (Hs & He & Hi & _).
    repeat split; assumption.
  - exfalso. assert (K : option_map courseDetails (resultsCard (play es Index_mount))
                         = Some None) by (rewrite Hc; cbn; now rewrite Hd).
    vm_compute in K. discriminate K.
Defined.

(** The stuck page of X15 is one of the pages X14 speaks of: a new
    submission there runs to its result. *)
Example stuck_page_recovers :
  let w := play [Generate (js "Robotics") (js "beginner") false; Elapse 1500;
                 StartNewSearch; Elapse 3500;
                 Generate (js "Blockchain") (js "advanced") false; Elapse 3500]
                Index_mount in
  results w = Some (generateFakeData (js "Blockchain") (js "advanced")) /\
  isLoading w = false /\ percentage w = None /\ timers w = [].
Proof. vm_compute. repeat split. Qed.
